(** * Esp32C3SuperMiniBoard: a shallow embedding of
      main/boards/esp32c3-supermini/esp32c3_supermini_board.cc

    The board class is modelled as a record, its member functions as
    computations over a state made of the board object ([this]) and the
    process-wide objects it reaches (the [Application] singleton, the
    function-local statics, the heap).  Every call that leaves the file
    (radio, application, drivers, RTOS, log) is appended to a trace, so that
    the order of the calls can be stated.  The radio ([WifiStation]) and the
    [Application] are external classes: they are interfaces here, and the
    theorems hold for every implementation of them. *)

From Stdlib Require Import ZArith NArith String Ascii List Bool Lia.
From Stdlib Require Import Decimal DecimalFacts DecimalPos DecimalZ DecimalString.
Import ListNotations.

Local Open Scope string_scope.
Local Open Scope Z_scope.

#[local] Set Warnings "-register-all".

(** ** Enumerations *)

(** [enum class PowerSaveLevel] is declared in board.h, which is not part of
    the sources at hand.  Modelled from the spec: "PowerSaveLevel
    (enumerated): {LOW_POWER, BALANCED, PERFORMANCE}", enumerators numbered
    in that order.  A scoped enumeration has [int] as its underlying type, so
    a value of the type is any integer, named or not. *)
Module PowerSaveLevel.
Definition t : Type := Z.
Definition LOW_POWER : t := 0.
Definition BALANCED : t := 1.
Definition PERFORMANCE : t := 2.
Definition defined (l : t) : Prop :=
  l = LOW_POWER \/ l = BALANCED \/ l = PERFORMANCE.
End PowerSaveLevel.

(** [enum class WifiPowerSaveLevel] of the radio component (wifi_station.h).
    The board only ever builds its three named enumerators. *)
Module WifiPowerSaveLevel.
Inductive t : Type := LOW_POWER | BALANCED | PERFORMANCE.
End WifiPowerSaveLevel.

(** Modelled from the spec: the [DeviceState] enumeration of application.h,
    which "includes at least Starting; other values are opaque to this
    layer". *)
Inductive DeviceState : Type :=
| kDeviceStateStarting
| kDeviceStateOther (raw : Z).

Definition DeviceState_eqb (a b : DeviceState) : bool :=
  match a, b with
  | kDeviceStateStarting, kDeviceStateStarting => true
  | kDeviceStateOther x, kDeviceStateOther y => Z.eqb x y
  | _, _ => false
  end.

(** ** External collaborators *)

(** The surface of [WifiStation] the board consumes.  [R] is the state of a
    station; commands return the new state, queries read it. *)
Module WifiStation.
Class Ops (R : Type) : Type := {
  ctor : R;
  Start : R -> R;
  Stop : R -> R;
  IsConnected : R -> bool;
  GetSsid : R -> string;
  GetIpAddress : R -> string;
  GetRssi : R -> Z;
  SetPowerSaveLevel : WifiPowerSaveLevel.t -> R -> R
}.
End WifiStation.

(** The two entry points of [Application] the button callback uses. *)
Module Application.
Class Ops (A : Type) : Type := {
  GetDeviceState : A -> DeviceState;
  ToggleChatState : A -> A
}.
End Application.

(** ** The manifest (config.h) *)

(** config.h is not part of the sources at hand; its macros are parameters. *)
Class Config : Type := {
  DISPLAY_MOSI_PIN : Z;
  DISPLAY_CLK_PIN : Z;
  DISPLAY_CS_PIN : Z;
  DISPLAY_DC_PIN : Z;
  DISPLAY_RST_PIN : Z;
  DISPLAY_SPI_MODE : Z;
  DISPLAY_WIDTH : Z;
  DISPLAY_HEIGHT : Z;
  DISPLAY_OFFSET_X : Z;
  DISPLAY_OFFSET_Y : Z;
  DISPLAY_MIRROR_X : bool;
  DISPLAY_MIRROR_Y : bool;
  DISPLAY_SWAP_XY : bool;
  DISPLAY_INVERT_COLOR : bool;
  DISPLAY_RGB_ORDER : Z;
  BOOT_BUTTON_GPIO : Z;
  BUILTIN_LED_GPIO : Z;
  AUDIO_INPUT_SAMPLE_RATE : Z;
  AUDIO_OUTPUT_SAMPLE_RATE : Z;
  AUDIO_I2S_SPK_GPIO_BCLK : Z;
  AUDIO_I2S_SPK_GPIO_LRCK : Z;
  AUDIO_I2S_SPK_GPIO_DOUT : Z;
  AUDIO_I2S_MIC_GPIO_SCK : Z;
  AUDIO_I2S_MIC_GPIO_WS : Z;
  AUDIO_I2S_MIC_GPIO_DIN : Z
}.

(** ** Objects and pointers *)

(** Storage of the two function-local statics. *)
Inductive StaticObject : Type :=
| GetLed_led
| GetAudioCodec_audio_codec.

(** A pointer is null, the address of a static, or a heap cell. *)
Inductive Ptr : Type :=
| nullptr
| static_addr (o : StaticObject)
| heap_addr (cell : nat).

Definition is_null (p : Ptr) : bool :=
  match p with nullptr => true | _ => false end.

(** The lambda bound in [InitializeButtons]; it captures [this]. *)
Inductive ClickCallback : Type :=
| InitializeButtons_lambda.

Record Button : Type := {
  gpio_num : Z;
  on_click : option ClickCallback
}.

Record SingleLed : Type := { led_gpio : Z }.

Record NoAudioCodecSimplex : Type := {
  input_sample_rate : Z;
  output_sample_rate : Z;
  spk_bclk : Z; spk_ws : Z; spk_dout : Z;
  mic_sck : Z; mic_ws : Z; mic_din : Z
}.

Record SpiLcdDisplay : Type := {
  panel_io_ : Ptr;
  panel_ : Ptr;
  width_ : Z; height_ : Z;
  offset_x_ : Z; offset_y_ : Z;
  mirror_x_ : bool; mirror_y_ : bool; swap_xy_ : bool
}.

(** ** C strings and [snprintf] *)

Definition NUL : ascii := "000"%char.
Definition dquote : ascii := "034"%char.
Definition newline : ascii := "010"%char.

(** A string of one character, and a run of blanks (the indentation inside
    the raw string literals). *)
Definition chr (c : ascii) : string := String c EmptyString.

Fixpoint spaces (n : nat) : string :=
  match n with
  | O => EmptyString
  | S n' => String " " (spaces n')
  end.

(** [std::string::c_str()] read as a C string, and [std::string(const char* )]:
    the characters before the first NUL. *)
Fixpoint c_str (s : string) : string :=
  match s with
  | EmptyString => EmptyString
  | String c rest =>
      if Ascii.eqb c NUL then EmptyString else String c (c_str rest)
  end.

(** The first [n] characters. *)
Fixpoint take (n : nat) (s : string) : string :=
  match n, s with
  | O, _ => EmptyString
  | _, EmptyString => EmptyString
  | S n', String c rest => String c (take n' rest)
  end.

(** [%d] of an [int]: decimal digits, a leading minus sign when negative. *)
Definition format_d (n : Z) : string :=
  NilZero.string_of_int (Z.to_int n).

Inductive Arg : Type :=
| arg_s (s : string)
| arg_d (n : Z).

(** The text a [printf]-family call produces before any size limit.  Only
    the two conversions the board uses are modelled; a conversion that finds
    no argument of its kind (undefined behaviour in C) prints nothing. *)
Fixpoint vformat (fmt : string) (args : list Arg) : string :=
  match fmt with
  | EmptyString => EmptyString
  | String "%" (String "s" rest) =>
      match args with
      | arg_s s :: args' => c_str s ++ vformat rest args'
      | _ => vformat rest (tl args)
      end
  | String "%" (String "d" rest) =>
      match args with
      | arg_d n :: args' => format_d n ++ vformat rest args'
      | _ => vformat rest (tl args)
      end
  | String c rest => String c (vformat rest args)
  end.

(** [snprintf(buffer, size, fmt, ...)]: the characters left in [buffer]
    before its terminating NUL, i.e. at most [size - 1] of them. *)
Definition snprintf (size : nat) (fmt : string) (args : list Arg) : string :=
  take (size - 1) (vformat fmt args).

(** ** JSON texts (RFC 8259)

    The reading side against which the two serializers are judged: a JSON
    value, and a reader from bytes to values.  A number keeps its digits
    ([Decimal.decimal]: integer part, fraction, exponent). *)

Inductive json : Type :=
| JNull
| JBool (b : bool)
| JNumber (n : decimal)
| JString (s : string)
| JArray (items : list json)
| JObject (members : list (string * json)).

(** The number a JSON text writes for the integer [z]. *)
Definition JInteger (z : Z) : json := JNumber (Decimal (Z.to_int z) Nil).

Inductive parse_result (X : Type) : Type :=
| Parsed (x : X) (rest : string)
| SyntaxError
| OutOfFuel.
Arguments Parsed {X} x rest.
Arguments SyntaxError {X}.
Arguments OutOfFuel {X}.

Definition is_ws (c : ascii) : bool :=
  Ascii.eqb c " " || Ascii.eqb c "009" || Ascii.eqb c "010" || Ascii.eqb c "013".

Fixpoint skip_ws (s : string) : string :=
  match s with
  | String c rest => if is_ws c then skip_ws rest else s
  | EmptyString => EmptyString
  end.

Definition digit_of_ascii (c : ascii) : option (uint -> uint) :=
  if Ascii.eqb c "0" then Some D0 else
  if Ascii.eqb c "1" then Some D1 else
  if Ascii.eqb c "2" then Some D2 else
  if Ascii.eqb c "3" then Some D3 else
  if Ascii.eqb c "4" then Some D4 else
  if Ascii.eqb c "5" then Some D5 else
  if Ascii.eqb c "6" then Some D6 else
  if Ascii.eqb c "7" then Some D7 else
  if Ascii.eqb c "8" then Some D8 else
  if Ascii.eqb c "9" then Some D9 else None.

(** The longest run of digits at the head of [s], and what follows it. *)
Fixpoint scan_digits (s : string) : uint * string :=
  match s with
  | EmptyString => (Nil, EmptyString)
  | String c rest =>
      match digit_of_ascii c with
      | Some d => let (ds, r) := scan_digits rest in (d ds, r)
      | None => (Nil, s)
      end
  end.

(** [int = zero / ( digit1-9 *DIGIT )]: no empty run, no leading zero. *)
Definition int_digits_ok (d : uint) : bool :=
  match d with
  | Nil => false
  | D0 Nil => true
  | D0 _ => false
  | _ => true
  end.

Definition nonempty_digits (d : uint) : bool :=
  match d with Nil => false | _ => true end.

(** [exp = e [ minus / plus ] 1*DIGIT], when present. *)
Definition scan_exponent (i : int) (f : uint) (s : string)
  : parse_result decimal :=
  match s with
  | String c rest =>
      if Ascii.eqb c "e" || Ascii.eqb c "E" then
        let signed :=
          match rest with
          | String sg r =>
              if Ascii.eqb sg "-" then (true, r)
              else if Ascii.eqb sg "+" then (false, r)
              else (false, rest)
          | EmptyString => (false, rest)
          end in
        let (e, r) := scan_digits (snd signed) in
        if nonempty_digits e
        then Parsed (DecimalExp i f (if fst signed then Neg e else Pos e)) r
        else SyntaxError
      else Parsed (Decimal i f) s
  | EmptyString => Parsed (Decimal i f) s
  end.

(** [number = [ minus ] int [ frac ] [ exp ]]. *)
Definition scan_number (s : string) : parse_result decimal :=
  let signed :=
    match s with
    | String c rest => if Ascii.eqb c "-" then (true, rest) else (false, s)
    | EmptyString => (false, s)
    end in
  let (d, r) := scan_digits (snd signed) in
  if int_digits_ok d then
    let i := if fst signed then Neg d else Pos d in
    match r with
    | String c r' =>
        if Ascii.eqb c "." then
          let (f, r'') := scan_digits r' in
          if nonempty_digits f then scan_exponent i f r'' else SyntaxError
        else scan_exponent i Nil r
    | EmptyString => scan_exponent i Nil r
    end
  else SyntaxError.

Definition hex_val (c : ascii) : option N :=
  let n := N_of_ascii c in
  if (48 <=? n)%N && (n <=? 57)%N then Some (n - 48)%N
  else if (65 <=? n)%N && (n <=? 70)%N then Some (n - 55)%N
  else if (97 <=? n)%N && (n <=? 102)%N then Some (n - 87)%N
  else None.

(** UTF-8 bytes of a code point of the basic plane (a [\u] escape). *)
Definition utf8 (n : N) : string :=
  if (n <? 128)%N then chr (ascii_of_N n)
  else if (n <? 2048)%N then
    String (ascii_of_N (192 + n / 64)) (chr (ascii_of_N (128 + n mod 64)))
  else
    String (ascii_of_N (224 + n / 4096))
      (String (ascii_of_N (128 + (n / 64) mod 64))
         (chr (ascii_of_N (128 + n mod 64)))).

Definition escape_char (c : ascii) : option ascii :=
  if Ascii.eqb c dquote then Some dquote else
  if Ascii.eqb c "\" then Some "\"%char else
  if Ascii.eqb c "/" then Some "/"%char else
  if Ascii.eqb c "b" then Some "008"%char else
  if Ascii.eqb c "f" then Some "012"%char else
  if Ascii.eqb c "n" then Some "010"%char else
  if Ascii.eqb c "r" then Some "013"%char else
  if Ascii.eqb c "t" then Some "009"%char else None.

Definition is_control (c : ascii) : bool := (N_of_ascii c <? 32)%N.

Definition map_parsed {X Y} (f : X -> Y) (r : parse_result X)
  : parse_result Y :=
  match r with
  | Parsed x rest => Parsed (f x) rest
  | SyntaxError => SyntaxError
  | OutOfFuel => OutOfFuel
  end.

(** The characters of a string after its opening quote, up to and including
    the closing quote; escapes are decoded, raw control characters refused. *)
Fixpoint scan_string_body (s : string) : parse_result string :=
  match s with
  | EmptyString => SyntaxError
  | String c rest =>
      if Ascii.eqb c dquote then Parsed EmptyString rest
      else if Ascii.eqb c "\" then
        match rest with
        | String e rest' =>
            if Ascii.eqb e "u" then
              match rest' with
              | String h1 (String h2 (String h3 (String h4 rest''))) =>
                  match hex_val h1, hex_val h2, hex_val h3, hex_val h4 with
                  | Some a, Some b, Some c', Some d =>
                      map_parsed
                        (append (utf8 (((a * 16 + b) * 16 + c') * 16 + d)%N))
                        (scan_string_body rest'')
                  | _, _, _, _ => SyntaxError
                  end
              | _ => SyntaxError
              end
            else
              match escape_char e with
              | Some x => map_parsed (String x) (scan_string_body rest')
              | None => SyntaxError
              end
        | EmptyString => SyntaxError
        end
      else if is_control c then SyntaxError
      else map_parsed (String c) (scan_string_body rest)
  end.

(** [strip_prefix p s]: what follows [p] in [s], if [s] starts with [p]. *)
Fixpoint strip_prefix (p s : string) : option string :=
  match p, s with
  | EmptyString, _ => Some s
  | String a p', String b s' =>
      if Ascii.eqb a b then strip_prefix p' s' else None
  | String _ _, EmptyString => None
  end.

Definition scan_keyword (kw : string) (v : json) (s : string)
  : parse_result json :=
  match strip_prefix kw s with
  | Some rest => Parsed v rest
  | None => SyntaxError
  end.

(** Values, object members and array elements.  [fuel] bounds the depth of
    the calls; a call that goes one level down has consumed a character at
    least every second time, so twice the length of the text is enough
    fuel ([parse_json_total] below). *)
Fixpoint parse_value (fuel : nat) (s : string) : parse_result json :=
  match fuel with
  | O => OutOfFuel
  | S fuel' =>
      match s with
      | EmptyString => SyntaxError
      | String c rest =>
          if Ascii.eqb c "{" then
            match skip_ws rest with
            | String c' rest' =>
                if Ascii.eqb c' "}" then Parsed (JObject []) rest'
                else map_parsed JObject (parse_members fuel' (skip_ws rest))
            | EmptyString => SyntaxError
            end
          else if Ascii.eqb c "[" then
            match skip_ws rest with
            | String c' rest' =>
                if Ascii.eqb c' "]" then Parsed (JArray []) rest'
                else map_parsed JArray (parse_elements fuel' (skip_ws rest))
            | EmptyString => SyntaxError
            end
          else if Ascii.eqb c dquote then
            map_parsed JString (scan_string_body rest)
          else if Ascii.eqb c "t" then scan_keyword "true" (JBool true) s
          else if Ascii.eqb c "f" then scan_keyword "false" (JBool false) s
          else if Ascii.eqb c "n" then scan_keyword "null" JNull s
          else map_parsed JNumber (scan_number s)
      end
  end

with parse_members (fuel : nat) (s : string)
  : parse_result (list (string * json)) :=
  match fuel with
  | O => OutOfFuel
  | S fuel' =>
      match s with
      | EmptyString => SyntaxError
      | String c rest =>
          if Ascii.eqb c dquote then
            match scan_string_body rest with
            | Parsed key r1 =>
                match skip_ws r1 with
                | String colon r2 =>
                    if Ascii.eqb colon ":" then
                      match parse_value fuel' (skip_ws r2) with
                      | Parsed v r3 =>
                          match skip_ws r3 with
                          | String sep r4 =>
                              if Ascii.eqb sep "," then
                                map_parsed (cons (key, v))
                                  (parse_members fuel' (skip_ws r4))
                              else if Ascii.eqb sep "}" then
                                Parsed [(key, v)] r4
                              else SyntaxError
                          | EmptyString => SyntaxError
                          end
                      | SyntaxError => SyntaxError
                      | OutOfFuel => OutOfFuel
                      end
                    else SyntaxError
                | EmptyString => SyntaxError
                end
            | SyntaxError => SyntaxError
            | OutOfFuel => OutOfFuel
            end
          else SyntaxError
      end
  end

with parse_elements (fuel : nat) (s : string) : parse_result (list json) :=
  match fuel with
  | O => OutOfFuel
  | S fuel' =>
      match parse_value fuel' s with
      | Parsed v r1 =>
          match skip_ws r1 with
          | String sep r2 =>
              if Ascii.eqb sep "," then
                map_parsed (cons v) (parse_elements fuel' (skip_ws r2))
              else if Ascii.eqb sep "]" then Parsed [v] r2
              else SyntaxError
          | EmptyString => SyntaxError
          end
      | SyntaxError => SyntaxError
      | OutOfFuel => OutOfFuel
      end
  end.

(** [JSON-text = ws value ws]: the whole text is one value. *)
Definition parse_json (s : string) : parse_result json :=
  match parse_value (S (2 * String.length s)) (skip_ws s) with
  | Parsed v rest =>
      match skip_ws rest with
      | EmptyString => Parsed v EmptyString
      | String _ _ => SyntaxError
      end
  | SyntaxError => SyntaxError
  | OutOfFuel => OutOfFuel
  end.

(** Member lookup in a parsed object (first binding of the key). *)
Fixpoint assoc (k : string) (ms : list (string * json)) : option json :=
  match ms with
  | [] => None
  | (k', v) :: rest => if String.eqb k k' then Some v else assoc k rest
  end.

Definition member (k : string) (j : json) : option json :=
  match j with
  | JObject ms => assoc k ms
  | _ => None
  end.

(** ** Vendor driver types (ESP-IDF), as far as the board fills them in *)

Definition esp_err_t : Type := Z.
Definition ESP_OK : esp_err_t := 0.
Definition GPIO_NUM_NC : Z := -1.

Inductive spi_host_device_t : Type := SPI2_HOST.
Inductive spi_dma_chan_t : Type := SPI_DMA_CH_AUTO.

Record spi_bus_config_t : Type := {
  mosi_io_num : Z;
  miso_io_num : Z;
  sclk_io_num : Z;
  quadwp_io_num : Z;
  quadhd_io_num : Z;
  max_transfer_sz : Z
}.

Record esp_lcd_panel_io_spi_config_t : Type := {
  cs_gpio_num : Z;
  dc_gpio_num : Z;
  spi_mode : Z;
  pclk_hz : Z;
  trans_queue_depth : Z;
  lcd_cmd_bits : Z;
  lcd_param_bits : Z
}.

Record esp_lcd_panel_dev_config_t : Type := {
  reset_gpio_num : Z;
  rgb_ele_order : Z;
  bits_per_pixel : Z
}.

(** 32-bit conversions of the target ([size_t] is unsigned, [int] signed). *)
Definition to_size_t (z : Z) : Z := z mod 2 ^ 32.
Definition to_int (z : Z) : Z := (z + 2 ^ 31) mod 2 ^ 32 - 2 ^ 31.
Definition sizeof_uint16_t : Z := 2.

(** Modelled from the spec: FreeRTOS' [pdMS_TO_TICKS] macro, which turns a
    duration in milliseconds into a tick count ("wait ~100 ms"; "the 100 ms
    delay ... is a lower bound").  The tick rate is not part of the sources,
    so the count is kept as the duration it stands for. *)
Inductive TickType_t : Type :=
| pdMS_TO_TICKS (ms : Z).

Definition ticks_ms (t : TickType_t) : Z :=
  match t with pdMS_TO_TICKS ms => ms end.

Inductive LogLevel : Type := LOGD | LOGI.

Definition TAG : string := "ESP32C3SuperMiniBoard".

(** ** Trace of outgoing calls *)

(** One constructor per call that changes something outside the board
    object.  Queries of the radio and of the application ([IsConnected],
    [GetSsid], [GetIpAddress], [GetRssi], [GetDeviceState]) only read the
    collaborator's state and are not traced. *)
Inductive Event : Type :=
| Call_spi_bus_initialize
    (host : spi_host_device_t) (cfg : spi_bus_config_t) (dma : spi_dma_chan_t)
| Call_esp_lcd_new_panel_io_spi
    (host : spi_host_device_t) (cfg : esp_lcd_panel_io_spi_config_t)
| Call_esp_lcd_new_panel_st7789 (io : Ptr) (cfg : esp_lcd_panel_dev_config_t)
| Call_esp_lcd_panel_reset (panel : Ptr)
| Call_esp_lcd_panel_init (panel : Ptr)
| Call_esp_lcd_panel_invert_color (panel : Ptr) (invert : bool)
| Call_esp_lcd_panel_swap_xy (panel : Ptr) (swap : bool)
| Call_esp_lcd_panel_mirror (panel : Ptr) (mx my : bool)
| Call_esp_lcd_panel_disp_on_off (panel : Ptr) (on : bool)
| Call_new_SpiLcdDisplay (at_ : Ptr) (d : SpiLcdDisplay)
| Call_delete_SpiLcdDisplay (at_ : Ptr)
| Call_SingleLed_ctor (led : SingleLed)
| Call_NoAudioCodecSimplex_ctor (codec : NoAudioCodecSimplex)
| Call_ESP_LOG (level : LogLevel) (tag msg : string)
| Call_vTaskDelay (ticks : TickType_t)
| Call_WifiStation_Start
| Call_WifiStation_Stop
| Call_WifiStation_SetPowerSaveLevel (l : WifiPowerSaveLevel.t)
| Call_Application_ToggleChatState.

(** ** Computations that may abort *)

Inductive Outcome (S X : Type) : Type :=
| Done (x : X) (s : S)
| Aborted (s : S).
Arguments Done {S X} x s.
Arguments Aborted {S X} s.

Definition M (S X : Type) : Type := S -> Outcome S X.

Definition ret {S X} (x : X) : M S X := fun s => Done x s.

Definition bind {S X Y} (c : M S X) (k : X -> M S Y) : M S Y :=
  fun s => match c s with
           | Done x s' => k x s'
           | Aborted s' => Aborted s'
           end.

Definition abort {S X} : M S X := fun s => Aborted s.

Notation "x <- c ;; k" := (bind c (fun x => k))
  (at level 61, c at next level, right associativity).
Notation "c ;;; k" := (bind c (fun _ => k))
  (at level 61, right associativity).

(** What the vendor drivers answer during bring-up: the error code of the
    three checked calls and the handles they hand out. *)
Record Hardware : Type := {
  spi_bus_initialize_ret : esp_err_t;
  esp_lcd_new_panel_io_spi_ret : esp_err_t;
  panel_io_handle : Ptr;
  esp_lcd_new_panel_st7789_ret : esp_err_t;
  panel_handle : Ptr
}.

(** ** The board object and the process around it *)

Record Board (R : Type) : Type := {
  boot_button_ : Button;
  display_ : Ptr;
  wifi_station_ : R
}.
Arguments boot_button_ {R} b.
Arguments display_ {R} b.
Arguments wifi_station_ {R} b.

(** Everything the member functions reach besides [this]. *)
Record World (A : Type) : Type := {
  app : A;
  led : option SingleLed;
  audio_codec : option NoAudioCodecSimplex;
  heap : list (option SpiLcdDisplay);
  hw : Hardware;
  trace : list Event
}.
Arguments app {A} w.
Arguments led {A} w.
Arguments audio_codec {A} w.
Arguments heap {A} w.
Arguments hw {A} w.
Arguments trace {A} w.

Record State (R A : Type) : Type := {
  this : Board R;
  world : World A
}.
Arguments this {R A} s.
Arguments world {R A} s.

Section Esp32C3SuperMiniBoard.
Context {R : Type} {radio_ops : WifiStation.Ops R}.
Context {A : Type} {app_ops : Application.Ops A}.
Context {config : Config}.

(** *** Field updates *)

Definition set_trace (t : list Event) (w : World A) : World A :=
  {| app := app w; led := led w; audio_codec := audio_codec w;
     heap := heap w; hw := hw w; trace := t |}.

Definition set_app (a : A) (w : World A) : World A :=
  {| app := a; led := led w; audio_codec := audio_codec w;
     heap := heap w; hw := hw w; trace := trace w |}.

Definition set_led (l : option SingleLed) (w : World A) : World A :=
  {| app := app w; led := l; audio_codec := audio_codec w;
     heap := heap w; hw := hw w; trace := trace w |}.

Definition set_audio_codec (c : option NoAudioCodecSimplex) (w : World A)
  : World A :=
  {| app := app w; led := led w; audio_codec := c;
     heap := heap w; hw := hw w; trace := trace w |}.

Definition set_heap (h : list (option SpiLcdDisplay)) (w : World A)
  : World A :=
  {| app := app w; led := led w; audio_codec := audio_codec w;
     heap := h; hw := hw w; trace := trace w |}.

Definition set_display_ (p : Ptr) (b : Board R) : Board R :=
  {| boot_button_ := boot_button_ b; display_ := p;
     wifi_station_ := wifi_station_ b |}.

Definition set_wifi_station_ (r : R) (b : Board R) : Board R :=
  {| boot_button_ := boot_button_ b; display_ := display_ b;
     wifi_station_ := r |}.

Definition set_boot_button_ (k : Button) (b : Board R) : Board R :=
  {| boot_button_ := k; display_ := display_ b;
     wifi_station_ := wifi_station_ b |}.

(** *** Primitive steps *)

Definition on_world (f : World A -> World A) : M (State R A) unit :=
  fun s => Done tt {| this := this s; world := f (world s) |}.

Definition on_this (f : Board R -> Board R) : M (State R A) unit :=
  fun s => Done tt {| this := f (this s); world := world s |}.

Definition read {X} (f : State R A -> X) : M (State R A) X :=
  fun s => Done (f s) s.

Definition emit (e : Event) : M (State R A) unit :=
  on_world (fun w => set_trace (trace w ++ [e]) w).

(** [ESP_ERROR_CHECK(x)]: any code but [ESP_OK] aborts. *)
Definition ESP_ERROR_CHECK (c : M (State R A) esp_err_t) : M (State R A) unit :=
  rc <- c ;;
  if rc =? ESP_OK then ret tt else abort.

Definition ESP_LOG (level : LogLevel) (tag msg : string) : M (State R A) unit :=
  emit (Call_ESP_LOG level tag msg).

Definition vTaskDelay (ticks : TickType_t) : M (State R A) unit :=
  emit (Call_vTaskDelay ticks).

(** **** Radio: commands run on the member [wifi_station_] *)

Definition wifi_station_Start : M (State R A) unit :=
  emit Call_WifiStation_Start ;;;
  on_this (fun b => set_wifi_station_ (WifiStation.Start (wifi_station_ b)) b).

Definition wifi_station_Stop : M (State R A) unit :=
  emit Call_WifiStation_Stop ;;;
  on_this (fun b => set_wifi_station_ (WifiStation.Stop (wifi_station_ b)) b).

Definition wifi_station_SetPowerSaveLevel (l : WifiPowerSaveLevel.t)
  : M (State R A) unit :=
  emit (Call_WifiStation_SetPowerSaveLevel l) ;;;
  on_this (fun b =>
    set_wifi_station_ (WifiStation.SetPowerSaveLevel l (wifi_station_ b)) b).

Definition wifi_station_IsConnected : M (State R A) bool :=
  read (fun s => WifiStation.IsConnected (wifi_station_ (this s))).

Definition wifi_station_GetSsid : M (State R A) string :=
  read (fun s => WifiStation.GetSsid (wifi_station_ (this s))).

Definition wifi_station_GetIpAddress : M (State R A) string :=
  read (fun s => WifiStation.GetIpAddress (wifi_station_ (this s))).

Definition wifi_station_GetRssi : M (State R A) Z :=
  read (fun s => WifiStation.GetRssi (wifi_station_ (this s))).

(** **** Application singleton *)

Definition app_GetDeviceState : M (State R A) DeviceState :=
  read (fun s => Application.GetDeviceState (app (world s))).

Definition app_ToggleChatState : M (State R A) unit :=
  emit Call_Application_ToggleChatState ;;;
  on_world (fun w => set_app (Application.ToggleChatState (app w)) w).

(** **** Vendor drivers *)

Definition spi_bus_initialize (host : spi_host_device_t)
    (cfg : spi_bus_config_t) (dma : spi_dma_chan_t) : M (State R A) esp_err_t :=
  emit (Call_spi_bus_initialize host cfg dma) ;;;
  read (fun s => spi_bus_initialize_ret (hw (world s))).

Definition esp_lcd_new_panel_io_spi (host : spi_host_device_t)
    (cfg : esp_lcd_panel_io_spi_config_t) : M (State R A) (esp_err_t * Ptr) :=
  emit (Call_esp_lcd_new_panel_io_spi host cfg) ;;;
  read (fun s => (esp_lcd_new_panel_io_spi_ret (hw (world s)),
                  panel_io_handle (hw (world s)))).

Definition esp_lcd_new_panel_st7789 (io : Ptr)
    (cfg : esp_lcd_panel_dev_config_t) : M (State R A) (esp_err_t * Ptr) :=
  emit (Call_esp_lcd_new_panel_st7789 io cfg) ;;;
  read (fun s => (esp_lcd_new_panel_st7789_ret (hw (world s)),
                  panel_handle (hw (world s)))).

(** [new SpiLcdDisplay(...)]: a fresh heap cell; never null. *)
Definition new_SpiLcdDisplay (d : SpiLcdDisplay) : M (State R A) Ptr :=
  p <- read (fun s => heap_addr (length (heap (world s)))) ;;
  on_world (fun w => set_heap (heap w ++ [Some d]) w) ;;;
  emit (Call_new_SpiLcdDisplay p d) ;;;
  ret p.

Fixpoint free_cell (n : nat) (h : list (option SpiLcdDisplay))
  : list (option SpiLcdDisplay) :=
  match h, n with
  | [], _ => []
  | _ :: t, O => None :: t
  | x :: t, S n' => x :: free_cell n' t
  end.

Definition delete_SpiLcdDisplay (p : Ptr) : M (State R A) unit :=
  match p with
  | heap_addr n => on_world (fun w => set_heap (free_cell n (heap w)) w)
  | _ => ret tt
  end ;;;
  emit (Call_delete_SpiLcdDisplay p).


(** *** Text of the two raw string literals *)

Definition quoted (s : string) : string := chr dquote ++ s ++ chr dquote.
Definition line (indent : nat) (s : string) : string :=
  spaces indent ++ s ++ chr newline.

(** The literal returned by [GetBoardJson]. *)
Definition board_json_literal : string :=
  Eval vm_compute in
  ("{" ++ chr newline ++
   line 12 (quoted "name" ++ ": " ++ quoted "ESP32-C3 SuperMini" ++ ",") ++
   line 12 (quoted "version" ++ ": " ++ quoted "1.0" ++ ",") ++
   line 12 (quoted "display" ++ ": {") ++
   line 16 (quoted "width" ++ ": 240,") ++
   line 16 (quoted "height" ++ ": 240,") ++
   line 16 (quoted "type" ++ ": " ++ quoted "st7789") ++
   line 12 "}," ++
   line 12 (quoted "audio" ++ ": {") ++
   line 16 (quoted "input_sample_rate" ++ ": 16000,") ++
   line 16 (quoted "output_sample_rate" ++ ": 24000") ++
   line 12 "}" ++
   spaces 8 ++ "}").

(** The format string of [GetDeviceStatusJson]. *)
Definition status_json_format : string :=
  Eval vm_compute in
  ("{" ++ chr newline ++
   line 16 (quoted "wifi_connected" ++ ": %s,") ++
   line 16 (quoted "wifi_ssid" ++ ": " ++ quoted "%s" ++ ",") ++
   line 16 (quoted "ip_address" ++ ": " ++ quoted "%s" ++ ",") ++
   line 16 (quoted "rssi" ++ ": %d") ++
   spaces 12 ++ "}").

(** A [const char*] result: null or a string literal. *)
Inductive const_char_ptr : Type :=
| null_char_ptr
| literal (s : string).

(** *** Private initializers *)

Definition InitializeSpi : M (State R A) unit :=
  let buscfg :=
    {| mosi_io_num := DISPLAY_MOSI_PIN;
       miso_io_num := GPIO_NUM_NC;
       sclk_io_num := DISPLAY_CLK_PIN;
       quadwp_io_num := GPIO_NUM_NC;
       quadhd_io_num := GPIO_NUM_NC;
       max_transfer_sz :=
         to_int (to_size_t (to_size_t (to_int (DISPLAY_WIDTH * DISPLAY_HEIGHT))
                            * sizeof_uint16_t)) |} in
  ESP_ERROR_CHECK (spi_bus_initialize SPI2_HOST buscfg SPI_DMA_CH_AUTO).

Definition InitializeLcdDisplay : M (State R A) unit :=
  ESP_LOG LOGD TAG "Install panel IO" ;;;
  let io_config :=
    {| cs_gpio_num := DISPLAY_CS_PIN;
       dc_gpio_num := DISPLAY_DC_PIN;
       spi_mode := DISPLAY_SPI_MODE;
       pclk_hz := 40 * 1000 * 1000;
       trans_queue_depth := 10;
       lcd_cmd_bits := 8;
       lcd_param_bits := 8 |} in
  r_io <- esp_lcd_new_panel_io_spi SPI2_HOST io_config ;;
  ESP_ERROR_CHECK (ret (fst r_io)) ;;;
  let panel_io := snd r_io in
  ESP_LOG LOGD TAG "Install LCD driver" ;;;
  let panel_config :=
    {| reset_gpio_num := DISPLAY_RST_PIN;
       rgb_ele_order := DISPLAY_RGB_ORDER;
       bits_per_pixel := 16 |} in
  r_panel <- esp_lcd_new_panel_st7789 panel_io panel_config ;;
  ESP_ERROR_CHECK (ret (fst r_panel)) ;;;
  let panel := snd r_panel in
  emit (Call_esp_lcd_panel_reset panel) ;;;
  emit (Call_esp_lcd_panel_init panel) ;;;
  emit (Call_esp_lcd_panel_invert_color panel DISPLAY_INVERT_COLOR) ;;;
  emit (Call_esp_lcd_panel_swap_xy panel DISPLAY_SWAP_XY) ;;;
  emit (Call_esp_lcd_panel_mirror panel DISPLAY_MIRROR_X DISPLAY_MIRROR_Y) ;;;
  emit (Call_esp_lcd_panel_disp_on_off panel true) ;;;
  p <- new_SpiLcdDisplay
         {| panel_io_ := panel_io; panel_ := panel;
            width_ := DISPLAY_WIDTH; height_ := DISPLAY_HEIGHT;
            offset_x_ := DISPLAY_OFFSET_X; offset_y_ := DISPLAY_OFFSET_Y;
            mirror_x_ := DISPLAY_MIRROR_X; mirror_y_ := DISPLAY_MIRROR_Y;
            swap_xy_ := DISPLAY_SWAP_XY |} ;;
  on_this (set_display_ p).

(** The body of the lambda passed to [boot_button_.OnClick]. *)
Definition boot_button_click : M (State R A) unit :=
  state <- app_GetDeviceState ;;
  reset <- (if DeviceState_eqb state kDeviceStateStarting
            then connected <- wifi_station_IsConnected ;; ret (negb connected)
            else ret false) ;;
  (if reset : bool
   then wifi_station_Stop ;;;
        vTaskDelay (pdMS_TO_TICKS 100) ;;;
        wifi_station_Start ;;;
        ESP_LOG LOGI TAG "WiFi configuration reset"
   else ret tt) ;;;
  app_ToggleChatState.

Definition run_callback (cb : ClickCallback) : M (State R A) unit :=
  match cb with
  | InitializeButtons_lambda => boot_button_click
  end.

Definition InitializeButtons : M (State R A) unit :=
  on_this (fun b =>
    set_boot_button_ {| gpio_num := gpio_num (boot_button_ b);
                        on_click := Some InitializeButtons_lambda |} b).

(** *** Constructor and destructor *)

Definition Esp32C3SuperMiniBoard_ctor (w : World A)
  : Outcome (State R A) unit :=
  (InitializeSpi ;;;
   InitializeLcdDisplay ;;;
   InitializeButtons)
    {| this := {| boot_button_ := {| gpio_num := BOOT_BUTTON_GPIO;
                                     on_click := None |};
                  display_ := nullptr;
                  wifi_station_ := WifiStation.ctor |};
       world := w |}.

Definition Esp32C3SuperMiniBoard_dtor : M (State R A) unit :=
  d <- read (fun s => display_ (this s)) ;;
  if is_null d then ret tt
  else delete_SpiLcdDisplay d ;;; on_this (set_display_ nullptr).

(** *** Public member functions *)

(** [static SingleLed led(BUILTIN_LED_GPIO); return &led;] the static is
    constructed by the first call that reaches it. *)
Definition GetLed : M (State R A) Ptr :=
  l <- read (fun s => led (world s)) ;;
  match l with
  | Some _ => ret tt
  | None =>
      let obj := {| led_gpio := BUILTIN_LED_GPIO |} in
      emit (Call_SingleLed_ctor obj) ;;;
      on_world (set_led (Some obj))
  end ;;;
  ret (static_addr GetLed_led).

Definition GetDisplay : M (State R A) Ptr :=
  read (fun s => display_ (this s)).

Definition GetAudioCodec : M (State R A) Ptr :=
  c <- read (fun s => audio_codec (world s)) ;;
  match c with
  | Some _ => ret tt
  | None =>
      let obj :=
        {| input_sample_rate := AUDIO_INPUT_SAMPLE_RATE;
           output_sample_rate := AUDIO_OUTPUT_SAMPLE_RATE;
           spk_bclk := AUDIO_I2S_SPK_GPIO_BCLK;
           spk_ws := AUDIO_I2S_SPK_GPIO_LRCK;
           spk_dout := AUDIO_I2S_SPK_GPIO_DOUT;
           mic_sck := AUDIO_I2S_MIC_GPIO_SCK;
           mic_ws := AUDIO_I2S_MIC_GPIO_WS;
           mic_din := AUDIO_I2S_MIC_GPIO_DIN |} in
      emit (Call_NoAudioCodecSimplex_ctor obj) ;;;
      on_world (set_audio_codec (Some obj))
  end ;;;
  ret (static_addr GetAudioCodec_audio_codec).

Definition GetBoardType : M (State R A) string :=
  ret "esp32c3-supermini".

Definition GetNetwork : M (State R A) Ptr :=
  ret nullptr.

Definition StartNetwork : M (State R A) unit :=
  wifi_station_Start.

Definition GetNetworkStateIcon : M (State R A) const_char_ptr :=
  connected <- wifi_station_IsConnected ;;
  ret (if connected : bool then literal "wifi" else literal "wifi_off").

Definition SetPowerSaveLevel (level : PowerSaveLevel.t) : M (State R A) unit :=
  let wifi_level :=
    if level =? PowerSaveLevel.LOW_POWER then WifiPowerSaveLevel.LOW_POWER
    else if level =? PowerSaveLevel.BALANCED then WifiPowerSaveLevel.BALANCED
    else if level =? PowerSaveLevel.PERFORMANCE
         then WifiPowerSaveLevel.PERFORMANCE
    else WifiPowerSaveLevel.BALANCED in
  wifi_station_SetPowerSaveLevel wifi_level.

Definition GetBoardJson : M (State R A) string :=
  ret board_json_literal.

Definition GetDeviceStatusJson : M (State R A) string :=
  connected <- wifi_station_IsConnected ;;
  ssid <- wifi_station_GetSsid ;;
  ip <- wifi_station_GetIpAddress ;;
  rssi <- wifi_station_GetRssi ;;
  let buffer :=
    snprintf 256 status_json_format
      [arg_s (if connected : bool then "true" else "false");
       arg_s ssid; arg_s ip; arg_d rssi] in
  ret (c_str buffer).

(** *** The board as the application drives it *)

(** One request to a constructed board: a call of a public member function,
    or a click of the boot button. *)
Inductive Request : Type :=
| Req_GetLed
| Req_GetDisplay
| Req_GetAudioCodec
| Req_GetBoardType
| Req_GetNetwork
| Req_StartNetwork
| Req_GetNetworkStateIcon
| Req_SetPowerSaveLevel (level : PowerSaveLevel.t)
| Req_GetBoardJson
| Req_GetDeviceStatusJson
| Req_Click.

Definition discard {X} (c : M (State R A) X) : M (State R A) unit :=
  c ;;; ret tt.

(** A click runs the callback bound to the button, if any. *)
Definition click : M (State R A) unit :=
  cb <- read (fun s => on_click (boot_button_ (this s))) ;;
  match cb with
  | Some f => run_callback f
  | None => ret tt
  end.

Definition serve (q : Request) : M (State R A) unit :=
  match q with
  | Req_GetLed => discard GetLed
  | Req_GetDisplay => discard GetDisplay
  | Req_GetAudioCodec => discard GetAudioCodec
  | Req_GetBoardType => discard GetBoardType
  | Req_GetNetwork => discard GetNetwork
  | Req_StartNetwork => StartNetwork
  | Req_GetNetworkStateIcon => discard GetNetworkStateIcon
  | Req_SetPowerSaveLevel level => SetPowerSaveLevel level
  | Req_GetBoardJson => discard GetBoardJson
  | Req_GetDeviceStatusJson => discard GetDeviceStatusJson
  | Req_Click => click
  end.

Fixpoint serve_all (qs : list Request) : M (State R A) unit :=
  match qs with
  | [] => ret tt
  | q :: rest => serve q ;;; serve_all rest
  end.

End Esp32C3SuperMiniBoard.

(** ** Test doubles

    A station that stores what it is told, an application that counts its
    toggles, and a manifest: the concrete collaborators the scenarios of the
    specification are run against. *)

Record MockStation : Type := {
  mock_started : bool;
  mock_connected : bool;
  mock_ssid : string;
  mock_ip : string;
  mock_rssi : Z;
  mock_level : WifiPowerSaveLevel.t
}.

#[export] Instance MockStation_ops : WifiStation.Ops MockStation := {|
  WifiStation.ctor :=
    {| mock_started := false; mock_connected := false;
       mock_ssid := ""; mock_ip := ""; mock_rssi := 0;
       mock_level := WifiPowerSaveLevel.BALANCED |};
  WifiStation.Start := fun r =>
    {| mock_started := true; mock_connected := mock_connected r;
       mock_ssid := mock_ssid r; mock_ip := mock_ip r;
       mock_rssi := mock_rssi r; mock_level := mock_level r |};
  WifiStation.Stop := fun r =>
    {| mock_started := false; mock_connected := false;
       mock_ssid := ""; mock_ip := ""; mock_rssi := 0;
       mock_level := mock_level r |};
  WifiStation.IsConnected := mock_connected;
  WifiStation.GetSsid := mock_ssid;
  WifiStation.GetIpAddress := mock_ip;
  WifiStation.GetRssi := mock_rssi;
  WifiStation.SetPowerSaveLevel := fun l r =>
    {| mock_started := mock_started r; mock_connected := mock_connected r;
       mock_ssid := mock_ssid r; mock_ip := mock_ip r;
       mock_rssi := mock_rssi r; mock_level := l |}
|}.

Record MockApp : Type := {
  mock_device_state : DeviceState;
  mock_toggles : nat
}.

#[export] Instance MockApp_ops : Application.Ops MockApp := {|
  Application.GetDeviceState := mock_device_state;
  Application.ToggleChatState := fun a =>
    {| mock_device_state := mock_device_state a;
       mock_toggles := S (mock_toggles a) |}
|}.

#[export] Instance sample_config : Config := {|
  DISPLAY_MOSI_PIN := 7; DISPLAY_CLK_PIN := 6; DISPLAY_CS_PIN := 10;
  DISPLAY_DC_PIN := 8; DISPLAY_RST_PIN := 9; DISPLAY_SPI_MODE := 0;
  DISPLAY_WIDTH := 240; DISPLAY_HEIGHT := 240;
  DISPLAY_OFFSET_X := 0; DISPLAY_OFFSET_Y := 0;
  DISPLAY_MIRROR_X := false; DISPLAY_MIRROR_Y := false;
  DISPLAY_SWAP_XY := false; DISPLAY_INVERT_COLOR := true;
  DISPLAY_RGB_ORDER := 0;
  BOOT_BUTTON_GPIO := 9; BUILTIN_LED_GPIO := 8;
  AUDIO_INPUT_SAMPLE_RATE := 16000; AUDIO_OUTPUT_SAMPLE_RATE := 24000;
  AUDIO_I2S_SPK_GPIO_BCLK := 2; AUDIO_I2S_SPK_GPIO_LRCK := 3;
  AUDIO_I2S_SPK_GPIO_DOUT := 4; AUDIO_I2S_MIC_GPIO_SCK := 0;
  AUDIO_I2S_MIC_GPIO_WS := 1; AUDIO_I2S_MIC_GPIO_DIN := 5
|}.

Definition good_hardware : Hardware := {|
  spi_bus_initialize_ret := ESP_OK;
  esp_lcd_new_panel_io_spi_ret := ESP_OK;
  panel_io_handle := heap_addr 100;
  esp_lcd_new_panel_st7789_ret := ESP_OK;
  panel_handle := heap_addr 101
|}.

(** A process in which nothing has run yet. *)
Definition fresh_world (st : DeviceState) : World MockApp := {|
  app := {| mock_device_state := st; mock_toggles := 0 |};
  led := None; audio_codec := None; heap := []; hw := good_hardware;
  trace := []
|}.

(** A constructed board around the station [r], the application in state
    [st]. *)
Definition mock_state (st : DeviceState) (r : MockStation)
  : State MockStation MockApp := {|
  this := {| boot_button_ := {| gpio_num := 9;
                                on_click := Some InitializeButtons_lambda |};
             display_ := heap_addr 0;
             wifi_station_ := r |};
  world := {| app := {| mock_device_state := st; mock_toggles := 0 |};
              led := None; audio_codec := None;
              heap := [Some {| panel_io_ := heap_addr 100;
                               panel_ := heap_addr 101;
                               width_ := 240; height_ := 240;
                               offset_x_ := 0; offset_y_ := 0;
                               mirror_x_ := false; mirror_y_ := false;
                               swap_xy_ := false |}];
              hw := good_hardware;
              trace := [] |}
|}.

Definition mock_radio (connected : bool) (ssid ip : string) (rssi : Z)
  : MockStation := {|
  mock_started := true; mock_connected := connected;
  mock_ssid := ssid; mock_ip := ip; mock_rssi := rssi;
  mock_level := WifiPowerSaveLevel.BALANCED
|}.

(** Scenario stations: S1 (cold start) and S4 (associated) of the
    specification, a station whose SSID is 200 bytes long, and one whose
    SSID holds a quotation mark. *)
Definition station_S1 : MockStation := mock_radio false "" "" 0.
Definition station_S4 : MockStation := mock_radio true "lab" "10.0.0.7" (-42).

Definition long_ssid : string :=
  Eval vm_compute in string_of_list_ascii (List.repeat "a"%char 200).

Definition station_long_ssid : MockStation :=
  mock_radio true long_ssid "10.0.0.7" (-42).

Definition quote_ssid : string := "a" ++ chr dquote ++ "b".

Definition station_quote_ssid : MockStation :=
  mock_radio true quote_ssid "10.0.0.7" (-42).

(** A station whose SSID holds a NUL byte, with a quotation mark after it. *)
Definition nul_ssid : string :=
  "ab" ++ chr NUL ++ "c" ++ chr dquote ++ "d".

Definition station_nul_ssid : MockStation :=
  mock_radio true nul_ssid "10.0.0.7" (-42).

(** Drivers of which the panel I/O installation fails. *)
Definition bad_panel_io : Hardware := {|
  spi_bus_initialize_ret := ESP_OK;
  esp_lcd_new_panel_io_spi_ret := 259;
  panel_io_handle := nullptr;
  esp_lcd_new_panel_st7789_ret := ESP_OK;
  panel_handle := heap_addr 101
|}.

Definition world_bad_panel_io : World MockApp := {|
  app := {| mock_device_state := kDeviceStateStarting; mock_toggles := 0 |};
  led := None; audio_codec := None; heap := []; hw := bad_panel_io;
  trace := []
|}.

(** An SSID that closes its own string and carries a member of its own. *)
Definition injected_ssid : string :=
  "a" ++ chr dquote ++ "," ++ quoted "wifi_ssid" ++ ":" ++ chr dquote
  ++ "evil".

Definition station_injected_ssid : MockStation :=
  mock_radio true injected_ssid "10.0.0.7" (-42).

(** The link drops: what the storing station looks like afterwards. *)
Definition link_drops (r : MockStation) : MockStation := {|
  mock_started := mock_started r; mock_connected := false;
  mock_ssid := ""; mock_ip := ""; mock_rssi := 0;
  mock_level := mock_level r
|}.

(** The level the storing station holds after [SetPowerSaveLevel(level)]. *)
Definition stored_level_after (level : PowerSaveLevel.t)
  : option WifiPowerSaveLevel.t :=
  match SetPowerSaveLevel level (mock_state kDeviceStateStarting station_S1)
  with
  | Done _ s => Some (mock_level (wifi_station_ (this s)))
  | Aborted _ => None
  end.

(** * Properties *)

(** ** What the specification calls things *)

(** The radio level "correspondingly named" to a board level; a value that
    is none of the three enumerators corresponds to [BALANCED]. *)
Inductive corresponds : PowerSaveLevel.t -> WifiPowerSaveLevel.t -> Prop :=
| corresponds_low_power :
    corresponds PowerSaveLevel.LOW_POWER WifiPowerSaveLevel.LOW_POWER
| corresponds_balanced :
    corresponds PowerSaveLevel.BALANCED WifiPowerSaveLevel.BALANCED
| corresponds_performance :
    corresponds PowerSaveLevel.PERFORMANCE WifiPowerSaveLevel.PERFORMANCE
| corresponds_unknown (level : PowerSaveLevel.t) :
    ~ PowerSaveLevel.defined level ->
    corresponds level WifiPowerSaveLevel.BALANCED.

(** Calls that belong to the bring-up and tear-down of the display: the
    bus, the panel I/O, the panel driver and the display object. *)
Definition is_bringup (e : Event) : bool :=
  match e with
  | Call_spi_bus_initialize _ _ _
  | Call_esp_lcd_new_panel_io_spi _ _
  | Call_esp_lcd_new_panel_st7789 _ _
  | Call_esp_lcd_panel_reset _
  | Call_esp_lcd_panel_init _
  | Call_esp_lcd_panel_invert_color _ _
  | Call_esp_lcd_panel_swap_xy _ _
  | Call_esp_lcd_panel_mirror _ _ _
  | Call_esp_lcd_panel_disp_on_off _ _
  | Call_new_SpiLcdDisplay _ _
  | Call_delete_SpiLcdDisplay _ => true
  | _ => false
  end.

Definition is_led_ctor (e : Event) : bool :=
  match e with Call_SingleLed_ctor _ => true | _ => false end.

Definition is_codec_ctor (e : Event) : bool :=
  match e with Call_NoAudioCodecSimplex_ctor _ => true | _ => false end.

Definition is_click (q : Request) : bool :=
  match q with Req_Click => true | _ => false end.

Definition is_GetLed (q : Request) : bool :=
  match q with Req_GetLed => true | _ => false end.

Definition is_GetAudioCodec (q : Request) : bool :=
  match q with Req_GetAudioCodec => true | _ => false end.


(** How many elements of a list satisfy a test. *)
Definition count {X} (f : X -> bool) (l : list X) : nat :=
  length (filter f l).

(** The constructor has left nothing behind: no display object on the heap,
    a null [display_], a button without callback. *)
Definition nothing_built {R A} (w : World A) (s : State R A) : Prop :=
  heap (world s) = heap w /\
  display_ (this s) = nullptr /\
  on_click (boot_button_ (this s)) = None.

Definition is_radio_stop (e : Event) : bool :=
  match e with Call_WifiStation_Stop => true | _ => false end.

(** Two states that differ at most in the trace of past calls. *)
Definition same_objects {R A} (s1 s2 : State R A) : Prop :=
  this s1 = this s2 /\
  app (world s1) = app (world s2) /\
  led (world s1) = led (world s2) /\
  audio_codec (world s1) = audio_codec (world s2) /\
  heap (world s1) = heap (world s2) /\
  hw (world s1) = hw (world s2).

(** Descent into nested objects along a list of keys. *)
Fixpoint at_path (path : list string) (j : json) : option json :=
  match path with
  | [] => Some j
  | k :: rest =>
      match member k j with
      | Some v => at_path rest v
      | None => None
      end
  end.

Definition is_object (j : json) : bool :=
  match j with JObject _ => true | _ => false end.

(** A byte JSON allows unescaped inside a string: not a control character,
    not the quotation mark, not the reverse solidus. *)
Definition json_plain_char (c : ascii) : bool :=
  negb (is_control c) && negb (Ascii.eqb c dquote) && negb (Ascii.eqb c "\").

Fixpoint json_plain (s : string) : bool :=
  match s with
  | EmptyString => true
  | String c rest => json_plain_char c && json_plain rest
  end.

Fixpoint no_nul (s : string) : bool :=
  match s with
  | EmptyString => true
  | String c rest => negb (Ascii.eqb c NUL) && no_nul rest
  end.

Definition is_digit (c : ascii) : bool :=
  match digit_of_ascii c with Some _ => true | None => false end.

(** A text at whose head a number ends: nothing, or a character that can
    continue neither the digits, nor a fraction, nor an exponent. *)
Definition number_end (s : string) : bool :=
  match s with
  | EmptyString => true
  | String c _ =>
      negb (is_digit c) && negb (Ascii.eqb c ".") &&
      negb (Ascii.eqb c "e") && negb (Ascii.eqb c "E")
  end.

(** A text whose first character can only start a number. *)
Definition starts_number (s : string) : bool :=
  match s with
  | EmptyString => false
  | String c _ => Ascii.eqb c "-" || is_digit c
  end.

Section StatusJson.
Context {R : Type} {radio_ops : WifiStation.Ops R}.

(** The arguments [GetDeviceStatusJson] passes to [snprintf]. *)
Definition status_args (r : R) : list Arg :=
  [arg_s (if WifiStation.IsConnected r then "true" else "false");
   arg_s (WifiStation.GetSsid r);
   arg_s (WifiStation.GetIpAddress r);
   arg_d (WifiStation.GetRssi r)].

(** The status text before the buffer size cuts it. *)
Definition status_text (r : R) : string :=
  vformat status_json_format (status_args r).

(** What the station reports, as a JSON object of the status schema. *)
Definition status_report (r : R) : json :=
  JObject
    [("wifi_connected", JBool (WifiStation.IsConnected r));
     ("wifi_ssid", JString (WifiStation.GetSsid r));
     ("ip_address", JString (WifiStation.GetIpAddress r));
     ("rssi", JInteger (WifiStation.GetRssi r))].

(** [GetDeviceStatusJson] returns a text that reads back as the report. *)
Definition status_json_faithful {A} (s : State R A)
  : Prop :=
  exists text,
    GetDeviceStatusJson s = Done text s /\
    parse_json text = Parsed (status_report (wifi_station_ (this s))) "".

End StatusJson.

(** ** The world around the board

    Between two requests the station and the application move on their own:
    the link comes up or drops, the device leaves the starting state.  A
    step is a request to the board or such a change from outside. *)
Section Surroundings.
Context {R : Type} {radio_ops : WifiStation.Ops R}.
Context {A : Type} {app_ops : Application.Ops A}.
Context {config : Config}.

Inductive Step : Type :=
| Step_request (q : Request)
| Step_radio (f : R -> R)
| Step_application (g : A -> A).

Definition happen (st : Step) : M (State R A) unit :=
  match st with
  | Step_request q => serve q
  | Step_radio f =>
      on_this (fun b => set_wifi_station_ (f (wifi_station_ b)) b)
  | Step_application g => on_world (fun w => set_app (g (app w)) w)
  end.

Fixpoint happen_all (sts : list Step) : M (State R A) unit :=
  match sts with
  | [] => ret tt
  | st :: rest => happen st ;;; happen_all rest
  end.

(** A step that does not take the link down. *)
Definition keeps_connected (st : Step) : Prop :=
  match st with
  | Step_radio f =>
      forall r, WifiStation.IsConnected r = true ->
                WifiStation.IsConnected (f r) = true
  | _ => True
  end.

End Surroundings.

Section Properties.
Context {R : Type} {radio_ops : WifiStation.Ops R}.
Context {A : Type} {app_ops : Application.Ops A}.
Context {config : Config}.

Implicit Types (s : State R A) (level : PowerSaveLevel.t).

(** *** Power save *)

Lemma SetPowerSaveLevel_run level s :
  SetPowerSaveLevel level s =
  let l := if level =? PowerSaveLevel.LOW_POWER
           then WifiPowerSaveLevel.LOW_POWER
           else if level =? PowerSaveLevel.BALANCED
           then WifiPowerSaveLevel.BALANCED
           else if level =? PowerSaveLevel.PERFORMANCE
           then WifiPowerSaveLevel.PERFORMANCE
           else WifiPowerSaveLevel.BALANCED in
  Done tt
    {| this := set_wifi_station_
                 (WifiStation.SetPowerSaveLevel l (wifi_station_ (this s)))
                 (this s);
       world := set_trace
                  (trace (world s) ++ [Call_WifiStation_SetPowerSaveLevel l])
                  (world s) |}.
Proof. reflexivity. Qed.

Lemma corresponds_switch level l :
  corresponds level l ->
  (if level =? PowerSaveLevel.LOW_POWER
   then WifiPowerSaveLevel.LOW_POWER
   else if level =? PowerSaveLevel.BALANCED
   then WifiPowerSaveLevel.BALANCED
   else if level =? PowerSaveLevel.PERFORMANCE
   then WifiPowerSaveLevel.PERFORMANCE
   else WifiPowerSaveLevel.BALANCED) = l.
Proof.
  intros H; destruct H as [ | | | level Hundefined]; try reflexivity.
  unfold PowerSaveLevel.defined in Hundefined.
  destruct (Z.eqb_spec level PowerSaveLevel.LOW_POWER) as [E|_];
    [exfalso; apply Hundefined; now left|].
  destruct (Z.eqb_spec level PowerSaveLevel.BALANCED) as [E|_];
    [reflexivity|].
  destruct (Z.eqb_spec level PowerSaveLevel.PERFORMANCE) as [E|_];
    [exfalso; apply Hundefined; now (right; right)|reflexivity].
Qed.

(** Every value of the board's enumeration has a radio level that
    corresponds to it. *)
Lemma corresponds_total level : exists l, corresponds level l.
Proof.
  destruct (Z.eq_dec level PowerSaveLevel.LOW_POWER) as [->|H0];
    [eexists; apply corresponds_low_power|].
  destruct (Z.eq_dec level PowerSaveLevel.BALANCED) as [->|H1];
    [eexists; apply corresponds_balanced|].
  destruct (Z.eq_dec level PowerSaveLevel.PERFORMANCE) as [->|H2];
    [eexists; apply corresponds_performance|].
  exists WifiPowerSaveLevel.BALANCED. apply corresponds_unknown.
  intros [E|[E|E]]; congruence.
Qed.

(** C1. [SetPowerSaveLevel(level)] hands the radio station the enumerator
    named like [level]; a value outside the three enumerators makes the
    radio receive [BALANCED].  The station is called once, with that value,
    and nothing else in the process changes. *)
Theorem SetPowerSaveLevel_radio_receives level l s :
  corresponds level l ->
  SetPowerSaveLevel level s =
  Done tt
    {| this := set_wifi_station_
                 (WifiStation.SetPowerSaveLevel l (wifi_station_ (this s)))
                 (this s);
       world := set_trace
                  (trace (world s) ++ [Call_WifiStation_SetPowerSaveLevel l])
                  (world s) |}.
Proof.
  intros H. rewrite SetPowerSaveLevel_run. cbv zeta.
  now rewrite (corresponds_switch level l H).
Qed.

(** C8. Applying the same level twice leaves the board object, the station
    and every other object of the process as one application does, provided
    the station's own [SetPowerSaveLevel] is idempotent (the board keeps no
    copy of the level: the state the call reaches is the station's). *)
Theorem SetPowerSaveLevel_idempotent level s :
  (forall l (r : R),
      WifiStation.SetPowerSaveLevel l (WifiStation.SetPowerSaveLevel l r) =
      WifiStation.SetPowerSaveLevel l r) ->
  exists once twice,
    SetPowerSaveLevel level s = Done tt once /\
    (SetPowerSaveLevel level ;;; SetPowerSaveLevel level) s = Done tt twice /\
    same_objects once twice.
Proof.
  intros Hradio. unfold bind.
  rewrite (SetPowerSaveLevel_run level s). cbv zeta.
  eexists. eexists. split; [reflexivity|].
  rewrite SetPowerSaveLevel_run. cbv zeta.
  split; [reflexivity|].
  unfold same_objects; cbn. rewrite Hradio. repeat split; reflexivity.
Qed.

(** *** Network *)

(** C10. [StartNetwork()] calls [Start()] on the station and nothing else:
    one event is added to the trace, no power-save call is made, and the
    display handle, the button with its callback binding, the two statics,
    the application and the heap are as before. *)
Theorem StartNetwork_frame s :
  exists s',
    StartNetwork s = Done tt s' /\
    trace (world s') = (trace (world s) ++ [Call_WifiStation_Start])%list /\
    wifi_station_ (this s') = WifiStation.Start (wifi_station_ (this s)) /\
    display_ (this s') = display_ (this s) /\
    boot_button_ (this s') = boot_button_ (this s) /\
    led (world s') = led (world s) /\
    audio_codec (world s') = audio_codec (world s) /\
    app (world s') = app (world s) /\
    heap (world s') = heap (world s) /\
    hw (world s') = hw (world s).
Proof.
  eexists. split; [reflexivity|]. cbn. repeat split; reflexivity.
Qed.

(** C5. [GetNetworkStateIcon()] always returns, never a null pointer: the
    literal "wifi" when the station reports connected, "wifi_off" when it
    does not; the state is left as it was. *)
Theorem GetNetworkStateIcon_spec s :
  exists icon,
    GetNetworkStateIcon s = Done icon s /\
    icon <> null_char_ptr /\
    (WifiStation.IsConnected (wifi_station_ (this s)) = true ->
     icon = literal "wifi") /\
    (WifiStation.IsConnected (wifi_station_ (this s)) = false ->
     icon = literal "wifi_off").
Proof.
  unfold GetNetworkStateIcon, wifi_station_IsConnected, read, bind, ret.
  destruct (WifiStation.IsConnected (wifi_station_ (this s)));
    eexists; (split; [reflexivity|]);
    (split; [discriminate|]); split; intros E; congruence.
Qed.

(** *** Button *)

Lemma boot_button_click_reset s :
  Application.GetDeviceState (app (world s)) = kDeviceStateStarting ->
  WifiStation.IsConnected (wifi_station_ (this s)) = false ->
  boot_button_click s =
  Done tt
    {| this := set_wifi_station_
                 (WifiStation.Start (WifiStation.Stop (wifi_station_ (this s))))
                 (this s);
       world := set_app (Application.ToggleChatState (app (world s)))
                  (set_trace
                     (trace (world s) ++
                      [Call_WifiStation_Stop;
                       Call_vTaskDelay (pdMS_TO_TICKS 100);
                       Call_WifiStation_Start;
                       Call_ESP_LOG LOGI TAG "WiFi configuration reset";
                       Call_Application_ToggleChatState])%list
                     (world s)) |}.
Proof.
  intros Hstate Hconn.
  unfold boot_button_click, app_GetDeviceState, wifi_station_IsConnected,
    read, bind, ret.
  rewrite Hstate. cbn [DeviceState_eqb]. rewrite Hconn. cbn.
  unfold set_app, set_trace; cbn.
  repeat rewrite <- app_assoc. reflexivity.
Qed.

Lemma boot_button_click_plain s :
  Application.GetDeviceState (app (world s)) <> kDeviceStateStarting \/
  WifiStation.IsConnected (wifi_station_ (this s)) = true ->
  boot_button_click s =
  Done tt
    {| this := this s;
       world := set_app (Application.ToggleChatState (app (world s)))
                  (set_trace
                     (trace (world s) ++ [Call_Application_ToggleChatState])
                     (world s)) |}.
Proof.
  intros Hcase.
  unfold boot_button_click, app_GetDeviceState, wifi_station_IsConnected,
    read, bind, ret.
  destruct (Application.GetDeviceState (app (world s))) eqn:Hstate;
    cbn [DeviceState_eqb].
  - destruct Hcase as [Hne | Hconn]; [congruence|].
    rewrite Hconn. reflexivity.
  - reflexivity.
Qed.

(** C2. The click callback, when the application is [Starting] and the
    station reports not connected, calls [Stop()], then delays for
    [pdMS_TO_TICKS(100)], then calls [Start()], logs, and toggles the chat
    state once, in that order; in every other case its only call is one
    chat-state toggle.  It always returns. *)
Theorem boot_button_click_calls s :
  (Application.GetDeviceState (app (world s)) = kDeviceStateStarting ->
   WifiStation.IsConnected (wifi_station_ (this s)) = false ->
   exists s' delay,
     boot_button_click s = Done tt s' /\
     (100 <= ticks_ms delay) /\
     trace (world s') =
       (trace (world s) ++
        [Call_WifiStation_Stop;
         Call_vTaskDelay delay;
         Call_WifiStation_Start;
         Call_ESP_LOG LOGI TAG "WiFi configuration reset";
         Call_Application_ToggleChatState])%list /\
     wifi_station_ (this s') =
       WifiStation.Start (WifiStation.Stop (wifi_station_ (this s))) /\
     app (world s') = Application.ToggleChatState (app (world s)))
  /\
  (Application.GetDeviceState (app (world s)) <> kDeviceStateStarting \/
   WifiStation.IsConnected (wifi_station_ (this s)) = true ->
   exists s',
     boot_button_click s = Done tt s' /\
     trace (world s') =
       (trace (world s) ++ [Call_Application_ToggleChatState])%list /\
     wifi_station_ (this s') = wifi_station_ (this s) /\
     app (world s') = Application.ToggleChatState (app (world s))).
Proof.
  split.
  - intros Hstate Hconn. eexists. exists (pdMS_TO_TICKS 100).
    split; [apply (boot_button_click_reset s Hstate Hconn)|].
    split; [cbn; lia|].
    cbn. repeat split; reflexivity.
  - intros Hcase. eexists.
    split; [apply (boot_button_click_plain s Hcase)|].
    cbn. repeat split; reflexivity.
Qed.

(** *** What no request changes *)

Ltac run_method :=
  cbv [serve discard click run_callback
       GetLed GetDisplay GetAudioCodec GetBoardType GetNetwork StartNetwork
       GetNetworkStateIcon SetPowerSaveLevel GetBoardJson GetDeviceStatusJson
       wifi_station_Start wifi_station_Stop wifi_station_SetPowerSaveLevel
       wifi_station_IsConnected wifi_station_GetSsid
       wifi_station_GetIpAddress wifi_station_GetRssi
       app_GetDeviceState app_ToggleChatState ESP_LOG vTaskDelay
       emit on_world on_this read bind ret].

(** Every request returns; it leaves the display pointer, the button and
    the heap alone, and keeps a static that has been constructed. *)
Lemma serve_preserves (q : Request) s :
  exists s',
    serve q s = Done tt s' /\
    display_ (this s') = display_ (this s) /\
    boot_button_ (this s') = boot_button_ (this s) /\
    heap (world s') = heap (world s) /\
    (led (world s) <> None -> led (world s') = led (world s)) /\
    (audio_codec (world s) <> None ->
     audio_codec (world s') = audio_codec (world s)).
Proof.
  destruct q.
  - run_method. destruct (led (world s)) eqn:E;
      eexists; (split; [reflexivity|]); cbn; rewrite ?E;
      repeat split; congruence.
  - run_method. eexists; split; [reflexivity|]. repeat split.
  - run_method. destruct (audio_codec (world s)) eqn:E;
      eexists; (split; [reflexivity|]); cbn; rewrite ?E;
      repeat split; congruence.
  - run_method. eexists; split; [reflexivity|]. repeat split.
  - run_method. eexists; split; [reflexivity|]. repeat split.
  - run_method. eexists; split; [reflexivity|]. repeat split.
  - run_method. eexists; split; [reflexivity|]. repeat split.
  - run_method. eexists; split; [reflexivity|]. repeat split.
  - run_method. eexists; split; [reflexivity|]. repeat split.
  - run_method. eexists; split; [reflexivity|]. repeat split.
  - cbv [serve click read bind].
    destruct (on_click (boot_button_ (this s))) as [[]|].
    + cbv [run_callback].
      destruct (DeviceState_eqb
                  (Application.GetDeviceState (app (world s)))
                  kDeviceStateStarting &&
                negb (WifiStation.IsConnected (wifi_station_ (this s))))
        eqn:E.
      * apply andb_true_iff in E. destruct E as [E1 E2].
        apply negb_true_iff in E2.
        assert (E1' : Application.GetDeviceState (app (world s)) =
                      kDeviceStateStarting).
        { destruct (Application.GetDeviceState (app (world s)));
            [reflexivity|discriminate E1]. }
        rewrite (boot_button_click_reset s E1' E2).
        eexists; split; [reflexivity|]. repeat split.
      * assert (E' : Application.GetDeviceState (app (world s)) <>
                       kDeviceStateStarting \/
                     WifiStation.IsConnected (wifi_station_ (this s)) = true).
        { apply andb_false_iff in E. destruct E as [E|E].
          - left. intros H. rewrite H in E. discriminate E.
          - right. now apply negb_false_iff in E. }
        rewrite (boot_button_click_plain s E').
        eexists; split; [reflexivity|]. repeat split.
    + eexists; split; [reflexivity|]. repeat split.
Qed.

Lemma serve_all_preserves (qs : list Request) s :
  exists s',
    serve_all qs s = Done tt s' /\
    display_ (this s') = display_ (this s) /\
    boot_button_ (this s') = boot_button_ (this s) /\
    heap (world s') = heap (world s) /\
    (led (world s) <> None -> led (world s') = led (world s)) /\
    (audio_codec (world s) <> None ->
     audio_codec (world s') = audio_codec (world s)).
Proof.
  revert s. induction qs as [|q qs IH]; intros s.
  - exists s. cbn. repeat split.
  - destruct (serve_preserves q s)
      as (s1 & Hrun & Hd & Hb & Hh & Hl & Hc).
    destruct (IH s1) as (s2 & Hrun2 & Hd2 & Hb2 & Hh2 & Hl2 & Hc2).
    exists s2. cbn [serve_all]. unfold bind at 1. rewrite Hrun.
    split; [exact Hrun2|].
    repeat split; try congruence.
    + intros Hn. rewrite Hl2; [now apply Hl|]. rewrite (Hl Hn). exact Hn.
    + intros Hn. rewrite Hc2; [now apply Hc|]. rewrite (Hc Hn). exact Hn.
Qed.

(** The destructor frees the display and clears the pointer; the statics
    are not its business. *)
Lemma Esp32C3SuperMiniBoard_dtor_run s :
  exists s',
    Esp32C3SuperMiniBoard_dtor s = Done tt s' /\
    display_ (this s') = nullptr /\
    led (world s') = led (world s) /\
    audio_codec (world s') = audio_codec (world s).
Proof.
  unfold Esp32C3SuperMiniBoard_dtor, delete_SpiLcdDisplay.
  cbv [emit on_world on_this read bind ret].
  destruct (display_ (this s)) as [|o|cell] eqn:E; cbn [is_null].
  - exists s. repeat split. exact E.
  - eexists. split; [reflexivity|]. repeat split.
  - eexists. split; [reflexivity|]. repeat split.
Qed.

(** *** Peripheral handles *)

Lemma GetLed_run s :
  exists s',
    GetLed s = Done (static_addr GetLed_led) s' /\
    led (world s') <> None /\
    (led (world s) <> None -> s' = s) /\
    (led (world s) = None ->
     led (world s') = Some {| led_gpio := BUILTIN_LED_GPIO |}).
Proof.
  run_method. destruct (led (world s)) eqn:E.
  - exists s. split; [reflexivity|]. rewrite E.
    repeat split; congruence.
  - eexists. split; [reflexivity|]. cbn.
    repeat split; congruence.
Qed.

Lemma GetAudioCodec_run s :
  exists s',
    GetAudioCodec s = Done (static_addr GetAudioCodec_audio_codec) s' /\
    audio_codec (world s') <> None /\
    (audio_codec (world s) <> None -> s' = s) /\
    (audio_codec (world s) = None ->
     audio_codec (world s') =
     Some {| input_sample_rate := AUDIO_INPUT_SAMPLE_RATE;
             output_sample_rate := AUDIO_OUTPUT_SAMPLE_RATE;
             spk_bclk := AUDIO_I2S_SPK_GPIO_BCLK;
             spk_ws := AUDIO_I2S_SPK_GPIO_LRCK;
             spk_dout := AUDIO_I2S_SPK_GPIO_DOUT;
             mic_sck := AUDIO_I2S_MIC_GPIO_SCK;
             mic_ws := AUDIO_I2S_MIC_GPIO_WS;
             mic_din := AUDIO_I2S_MIC_GPIO_DIN |}).
Proof.
  run_method. destruct (audio_codec (world s)) eqn:E.
  - exists s. split; [reflexivity|]. rewrite E.
    repeat split; congruence.
  - eexists. split; [reflexivity|]. cbn.
    repeat split; congruence.
Qed.

(** C6. [GetLed()] returns one and the same non-null handle whatever the
    state it is called in, and so does [GetAudioCodec()].  The object behind
    the handle is constructed by the first call (from the manifest), left as
    it is by later calls, kept by every request served afterwards, and
    outlives the board's destructor. *)
Theorem GetLed_GetAudioCodec_singleton s1 s2 :
  (exists h s1' s2',
     GetLed s1 = Done h s1' /\ GetLed s2 = Done h s2' /\
     h <> nullptr /\
     led (world s1') <> None /\
     (led (world s1) = None ->
      led (world s1') = Some {| led_gpio := BUILTIN_LED_GPIO |}) /\
     (led (world s1) <> None -> s1' = s1) /\
     (forall qs, exists s3 s4,
        serve_all qs s1' = Done tt s3 /\
        Esp32C3SuperMiniBoard_dtor s3 = Done tt s4 /\
        led (world s3) = led (world s1') /\
        led (world s4) = led (world s1')))
  /\
  (exists h s1' s2',
     GetAudioCodec s1 = Done h s1' /\ GetAudioCodec s2 = Done h s2' /\
     h <> nullptr /\
     audio_codec (world s1') <> None /\
     (audio_codec (world s1) <> None -> s1' = s1) /\
     (forall qs, exists s3 s4,
        serve_all qs s1' = Done tt s3 /\
        Esp32C3SuperMiniBoard_dtor s3 = Done tt s4 /\
        audio_codec (world s3) = audio_codec (world s1') /\
        audio_codec (world s4) = audio_codec (world s1'))).
Proof.
  split.
  - destruct (GetLed_run s1) as (s1' & Hrun1 & Hsome & Hsame & Hfirst).
    destruct (GetLed_run s2) as (s2' & Hrun2 & _).
    exists (static_addr GetLed_led), s1', s2'.
    split; [exact Hrun1|]. split; [exact Hrun2|].
    split; [discriminate|]. split; [exact Hsome|].
    split; [exact Hfirst|]. split; [exact Hsame|].
    intros qs.
    destruct (serve_all_preserves qs s1')
      as (s3 & Hrun & _ & _ & _ & Hl & _).
    destruct (Esp32C3SuperMiniBoard_dtor_run s3) as (s4 & Hd & _ & Hl4 & _).
    exists s3, s4. split; [exact Hrun|]. split; [exact Hd|].
    rewrite Hl4. split; apply Hl; exact Hsome.
  - destruct (GetAudioCodec_run s1) as (s1' & Hrun1 & Hsome & Hsame & _).
    destruct (GetAudioCodec_run s2) as (s2' & Hrun2 & _).
    exists (static_addr GetAudioCodec_audio_codec), s1', s2'.
    split; [exact Hrun1|]. split; [exact Hrun2|].
    split; [discriminate|]. split; [exact Hsome|]. split; [exact Hsame|].
    intros qs.
    destruct (serve_all_preserves qs s1')
      as (s3 & Hrun & _ & _ & _ & _ & Hc).
    destruct (Esp32C3SuperMiniBoard_dtor_run s3) as (s4 & Hd & _ & _ & Hc4).
    exists s3, s4. split; [exact Hrun|]. split; [exact Hd|].
    rewrite Hc4. split; apply Hc; exact Hsome.
Qed.

Ltac run_init :=
  cbv [Esp32C3SuperMiniBoard_ctor InitializeSpi InitializeLcdDisplay
       InitializeButtons ESP_ERROR_CHECK spi_bus_initialize
       esp_lcd_new_panel_io_spi esp_lcd_new_panel_st7789 new_SpiLcdDisplay
       ESP_LOG emit on_world on_this read bind ret abort
       set_trace set_heap set_display_ set_boot_button_
       this world app led audio_codec heap hw trace
       boot_button_ display_ wifi_station_ gpio_num on_click fst snd
       spi_bus_initialize_ret esp_lcd_new_panel_io_spi_ret panel_io_handle
       esp_lcd_new_panel_st7789_ret panel_handle ESP_OK Z.eqb].

Lemma Esp32C3SuperMiniBoard_ctor_run (w : World A) :
  spi_bus_initialize_ret (hw w) = ESP_OK ->
  esp_lcd_new_panel_io_spi_ret (hw w) = ESP_OK ->
  esp_lcd_new_panel_st7789_ret (hw w) = ESP_OK ->
  exists s0,
    Esp32C3SuperMiniBoard_ctor w = Done tt s0 /\
    display_ (this s0) = heap_addr (length (heap w)) /\
    boot_button_ (this s0) =
      {| gpio_num := BOOT_BUTTON_GPIO;
         on_click := Some InitializeButtons_lambda |} /\
    wifi_station_ (this s0) = WifiStation.ctor /\
    led (world s0) = led w /\
    audio_codec (world s0) = audio_codec w.
Proof.
  destruct w as [a l c h [r1 io r2 r3 p] t]. cbn.
  intros -> -> ->.
  run_init.
  eexists. split; [reflexivity|]. cbn. repeat split.
Qed.
(** C7. When the three checked driver calls of the bring-up succeed, the
    constructor returns a board whose display pointer is a non-null heap
    cell, and after any sequence of requests (member-function calls and
    button clicks) [GetDisplay()] still returns that same handle: nothing
    reassigns [display_] while the board lives.  Only the destructor clears
    it. *)
Theorem GetDisplay_stable (w : World A) :
  spi_bus_initialize_ret (hw w) = ESP_OK ->
  esp_lcd_new_panel_io_spi_ret (hw w) = ESP_OK ->
  esp_lcd_new_panel_st7789_ret (hw w) = ESP_OK ->
  exists s0 h,
    Esp32C3SuperMiniBoard_ctor w = Done tt s0 /\
    h <> nullptr /\
    forall qs, exists s s_end,
      serve_all qs s0 = Done tt s /\
      GetDisplay s = Done h s /\
      Esp32C3SuperMiniBoard_dtor s = Done tt s_end /\
      display_ (this s_end) = nullptr.
Proof.
  intros Hspi Hio Hpanel.
  destruct (Esp32C3SuperMiniBoard_ctor_run w Hspi Hio Hpanel)
    as (s0 & Hctor & Hdisplay & _).
  exists s0, (heap_addr (length (heap w))).
  split; [exact Hctor|]. split; [discriminate|].
  intros qs.
  destruct (serve_all_preserves qs s0) as (s & Hrun & Hd & _).
  destruct (Esp32C3SuperMiniBoard_dtor_run s) as (s_end & Hdtor & Hnull & _).
  exists s, s_end. split; [exact Hrun|].
  split; [unfold GetDisplay, read; now rewrite Hd, Hdisplay|].
  split; [exact Hdtor|exact Hnull].
Qed.

(** *** Strings and numbers, written and read back *)

Lemma take_all (s : string) (n : nat) :
  (String.length s <= n)%nat -> take n s = s.
Proof.
  revert n. induction s as [|c s IH]; intros [|n] H; cbn in *; try reflexivity.
  - lia.
  - now rewrite IH by lia.
Qed.

Lemma length_take (s : string) (n : nat) :
  String.length (take n s) = Nat.min n (String.length s).
Proof.
  revert n. induction s as [|c s IH]; intros [|n]; cbn; try reflexivity.
  now rewrite IH.
Qed.

Lemma c_str_no_nul (s : string) : no_nul s = true -> c_str s = s.
Proof.
  induction s as [|c s IH]; cbn; [reflexivity|].
  intros H. apply andb_true_iff in H. destruct H as [Hc Hs].
  apply negb_true_iff in Hc. rewrite Hc. now rewrite IH.
Qed.

Lemma json_plain_no_nul (s : string) : json_plain s = true -> no_nul s = true.
Proof.
  induction s as [|c s IH]; cbn; [reflexivity|].
  intros H. apply andb_true_iff in H. destruct H as [Hc Hs].
  rewrite (IH Hs), andb_true_r.
  unfold json_plain_char in Hc.
  apply andb_true_iff in Hc. destruct Hc as [Hc _].
  apply andb_true_iff in Hc. destruct Hc as [Hc _].
  destruct (Ascii.eqb_spec c NUL) as [->|]; [discriminate Hc|reflexivity].
Qed.

Lemma scan_string_body_plain (s rest : string) :
  json_plain s = true ->
  scan_string_body (s ++ String dquote rest) = Parsed s rest.
Proof.
  induction s as [|c s IH]; intros H.
  - reflexivity.
  - cbn [json_plain] in H. apply andb_true_iff in H. destruct H as [Hc Hs].
    unfold json_plain_char in Hc.
    apply andb_true_iff in Hc. destruct Hc as [Hc Hbs].
    apply andb_true_iff in Hc. destruct Hc as [Hctl Hq].
    apply negb_true_iff in Hctl, Hq, Hbs.
    cbn [append scan_string_body]. rewrite Hq, Hbs, Hctl.
    rewrite (IH Hs). reflexivity.
Qed.

Lemma number_end_not_digit (c : ascii) (rest : string) :
  number_end (String c rest) = true -> digit_of_ascii c = None.
Proof.
  cbn. unfold is_digit. destruct (digit_of_ascii c); [discriminate|reflexivity].
Qed.

Lemma scan_digits_string_of_uint (d : uint) (rest : string) :
  number_end rest = true ->
  scan_digits (NilEmpty.string_of_uint d ++ rest) = (d, rest).
Proof.
  intros Hrest.
  induction d as [|d IH|d IH|d IH|d IH|d IH|d IH|d IH|d IH|d IH|d IH];
    cbn [NilEmpty.string_of_uint append];
    try (cbn [scan_digits]; cbn; rewrite IH; reflexivity).
  destruct rest as [|c rest]; [reflexivity|].
  cbn [scan_digits]. now rewrite (number_end_not_digit c rest Hrest).
Qed.

Lemma unorm_fixed_ok (d : uint) : unorm d = d -> int_digits_ok d = true.
Proof.
  destruct d as [|d|d|d|d|d|d|d|d|d|d]; try reflexivity.
  - cbn. discriminate.
  - intros H. destruct d as [|d|d|d|d|d|d|d|d|d|d]; try reflexivity;
    exfalso;
    match type of H with unorm (D0 ?x) = _ =>
      change (unorm (D0 x)) with (unorm x) in H;
      assert (Hn : x <> Nil) by discriminate;
      pose proof (nb_digits_unorm x Hn) as Hle;
      rewrite H in Hle; cbn in Hle; lia
    end.
Qed.

Lemma to_int_normal (z : Z) : norm (Z.to_int z) = Z.to_int z.
Proof.
  rewrite <- (DecimalZ.to_of (Z.to_int z)). now rewrite DecimalZ.of_to.
Qed.

Lemma to_uint_ok (p : positive) : int_digits_ok (Pos.to_uint p) = true.
Proof.
  apply unorm_fixed_ok.
  pose proof (to_int_normal (Z.pos p)) as H. cbn in H. now injection H.
Qed.

Lemma scan_exponent_end (i : int) (rest : string) :
  number_end rest = true ->
  match rest with
  | String c r' =>
      if Ascii.eqb c "." then
        let (f, r'') := scan_digits r' in
        if nonempty_digits f then scan_exponent i f r'' else SyntaxError
      else scan_exponent i Nil rest
  | EmptyString => scan_exponent i Nil rest
  end = Parsed (Decimal i Nil) rest.
Proof.
  destruct rest as [|c rest]; [reflexivity|].
  cbn [number_end]. intros H.
  apply andb_true_iff in H. destruct H as [H HE].
  apply andb_true_iff in H. destruct H as [H He].
  apply andb_true_iff in H. destruct H as [_ Hdot].
  apply negb_true_iff in Hdot, He, HE.
  rewrite Hdot. cbn [scan_exponent]. now rewrite He, HE.
Qed.

Lemma string_of_uint_head (d : uint) (rest : string) :
  d <> Nil ->
  exists c tail,
    NilEmpty.string_of_uint d ++ rest = String c tail /\
    is_digit c = true /\ Ascii.eqb c "-" = false.
Proof.
  intros Hd. destruct d; [congruence| ..];
    cbn [NilEmpty.string_of_uint append];
    do 2 eexists; (split; [reflexivity|]); split; reflexivity.
Qed.

Lemma scan_number_unsigned (d : uint) (rest : string) :
  d <> Nil -> int_digits_ok d = true -> number_end rest = true ->
  scan_number (NilEmpty.string_of_uint d ++ rest) =
  Parsed (Decimal (Pos d) Nil) rest.
Proof.
  intros Hd Hok Hrest. unfold scan_number.
  destruct (string_of_uint_head d rest Hd) as (c & tail & E & _ & Hminus).
  match goal with |- context [fst ?sg] =>
    assert (Hsg : sg = (false, NilEmpty.string_of_uint d ++ rest))
  end.
  { destruct (NilEmpty.string_of_uint d ++ rest) as [|c' tail'];
      [discriminate E|].
    injection E as -> ->. now rewrite Hminus. }
  rewrite Hsg. cbn [snd fst].
  rewrite (scan_digits_string_of_uint d rest Hrest), Hok.
  apply scan_exponent_end, Hrest.
Qed.

Lemma scan_number_negative (d : uint) (rest : string) :
  int_digits_ok d = true -> number_end rest = true ->
  scan_number (String "-" (NilEmpty.string_of_uint d ++ rest)) =
  Parsed (Decimal (Neg d) Nil) rest.
Proof.
  intros Hok Hrest. unfold scan_number.
  change (Ascii.eqb "-" "-") with true. cbn [snd fst].
  rewrite (scan_digits_string_of_uint d rest Hrest), Hok.
  apply scan_exponent_end, Hrest.
Qed.

Lemma NilZero_string_of_uint_nonnil (d : uint) :
  d <> Nil -> NilZero.string_of_uint d = NilEmpty.string_of_uint d.
Proof. destruct d; [congruence| ..]; reflexivity. Qed.

(** What [%d] writes reads back as the same integer. *)
Lemma scan_number_format_d (z : Z) (rest : string) :
  number_end rest = true ->
  scan_number (format_d z ++ rest) = Parsed (Decimal (Z.to_int z) Nil) rest.
Proof.
  intros Hrest. unfold format_d. destruct z as [|p|p]; cbn [Z.to_int].
  - apply (scan_number_unsigned zero rest);
      [discriminate|reflexivity|exact Hrest].
  - cbn [NilZero.string_of_int].
    rewrite (NilZero_string_of_uint_nonnil _ (Unsigned.to_uint_nonnil p)).
    apply scan_number_unsigned;
      [apply Unsigned.to_uint_nonnil|apply to_uint_ok|exact Hrest].
  - cbn [NilZero.string_of_int].
    rewrite (NilZero_string_of_uint_nonnil _ (Unsigned.to_uint_nonnil p)).
    cbn [append].
    apply scan_number_negative; [apply to_uint_ok|exact Hrest].
Qed.

Lemma starts_number_format_d (z : Z) (rest : string) :
  starts_number (format_d z ++ rest) = true.
Proof.
  unfold format_d. destruct z as [|p|p]; cbn [Z.to_int NilZero.string_of_int].
  - reflexivity.
  - rewrite (NilZero_string_of_uint_nonnil _ (Unsigned.to_uint_nonnil p)).
    destruct (string_of_uint_head (Pos.to_uint p) rest
                (Unsigned.to_uint_nonnil p)) as (c & tail & E & Hd & _).
    rewrite E. cbn. rewrite Hd. apply orb_true_r.
  - reflexivity.
Qed.

Lemma parse_value_number (fuel : nat) (s : string) :
  starts_number s = true ->
  parse_value (S fuel) s = map_parsed JNumber (scan_number s).
Proof.
  destruct s as [|c s]; [discriminate|].
  intros H. cbn [parse_value].
  destruct c as [[] [] [] [] [] [] [] []]; try discriminate H; reflexivity.
Qed.

Lemma skip_ws_starts_number (s : string) :
  starts_number s = true -> skip_ws s = s.
Proof.
  destruct s as [|c s]; [reflexivity|].
  intros H. cbn [skip_ws].
  destruct c as [[] [] [] [] [] [] [] []]; try discriminate H; reflexivity.
Qed.

(** A value position holding what [%d] wrote. *)
Lemma parse_value_format_d (fuel : nat) (z : Z) (rest : string) :
  number_end rest = true ->
  parse_value (S fuel) (skip_ws (format_d z ++ rest)) =
  Parsed (JInteger z) rest.
Proof.
  intros Hrest.
  rewrite (skip_ws_starts_number _ (starts_number_format_d z rest)).
  rewrite (parse_value_number _ _ (starts_number_format_d z rest)).
  now rewrite (scan_number_format_d z rest Hrest).
Qed.

(** One unfolding of the reader at a text with a known first character. *)
Lemma parse_value_step (fuel : nat) (c : ascii) (rest : string) :
  parse_value (S fuel) (String c rest) =
  if Ascii.eqb c "{" then
    match skip_ws rest with
    | String c' rest' =>
        if Ascii.eqb c' "}" then Parsed (JObject []) rest'
        else map_parsed JObject (parse_members fuel (skip_ws rest))
    | EmptyString => SyntaxError
    end
  else if Ascii.eqb c "[" then
    match skip_ws rest with
    | String c' rest' =>
        if Ascii.eqb c' "]" then Parsed (JArray []) rest'
        else map_parsed JArray (parse_elements fuel (skip_ws rest))
    | EmptyString => SyntaxError
    end
  else if Ascii.eqb c dquote then map_parsed JString (scan_string_body rest)
  else if Ascii.eqb c "t" then scan_keyword "true" (JBool true) (String c rest)
  else if Ascii.eqb c "f"
  then scan_keyword "false" (JBool false) (String c rest)
  else if Ascii.eqb c "n" then scan_keyword "null" JNull (String c rest)
  else map_parsed JNumber (scan_number (String c rest)).
Proof. reflexivity. Qed.

Lemma parse_members_step (fuel : nat) (rest : string) :
  parse_members (S fuel) (String dquote rest) =
  match scan_string_body rest with
  | Parsed key r1 =>
      match skip_ws r1 with
      | String colon r2 =>
          if Ascii.eqb colon ":" then
            match parse_value fuel (skip_ws r2) with
            | Parsed v r3 =>
                match skip_ws r3 with
                | String sep r4 =>
                    if Ascii.eqb sep "," then
                      map_parsed (cons (key, v))
                        (parse_members fuel (skip_ws r4))
                    else if Ascii.eqb sep "}" then Parsed [(key, v)] r4
                    else SyntaxError
                | EmptyString => SyntaxError
                end
            | SyntaxError => SyntaxError
            | OutOfFuel => OutOfFuel
            end
          else SyntaxError
      | EmptyString => SyntaxError
      end
  | SyntaxError => SyntaxError
  | OutOfFuel => OutOfFuel
  end.
Proof. reflexivity. Qed.

Ltac reader_step :=
  first [rewrite parse_value_step | rewrite parse_members_step];
  cbn -[parse_value parse_members parse_elements].

(** The untruncated status text reads back as the station's report, when
    the two strings need no escaping. *)
Lemma parse_status_text (r : R) (n : nat) :
  json_plain (WifiStation.GetSsid r) = true ->
  json_plain (WifiStation.GetIpAddress r) = true ->
  parse_value (6 + n) (status_text r) = Parsed (status_report r) "".
Proof.
  intros Hssid Hip.
  unfold status_text, status_args, status_report.
  assert (Hssid' : json_plain (c_str (WifiStation.GetSsid r)) = true)
    by now rewrite (c_str_no_nul _ (json_plain_no_nul _ Hssid)).
  assert (Hip' : json_plain (c_str (WifiStation.GetIpAddress r)) = true)
    by now rewrite (c_str_no_nul _ (json_plain_no_nul _ Hip)).
  destruct (WifiStation.IsConnected r);
    cbn -[parse_value parse_members parse_elements];
    do 5 reader_step;
    rewrite (scan_string_body_plain _ _ Hssid');
    cbn -[parse_value parse_members parse_elements];
    do 2 reader_step;
    rewrite (scan_string_body_plain _ _ Hip');
    cbn -[parse_value parse_members parse_elements];
    rewrite parse_members_step;
    cbn -[parse_value parse_members parse_elements];
    rewrite parse_value_format_d by reflexivity;
    cbn -[parse_value parse_members parse_elements];
    rewrite (c_str_no_nul _ (json_plain_no_nul _ Hssid));
    rewrite (c_str_no_nul _ (json_plain_no_nul _ Hip));
    reflexivity.
Qed.

Lemma status_text_length (r : R) :
  (5 <= String.length (status_text r))%nat.
Proof.
  unfold status_text, status_args. cbn. lia.
Qed.

Lemma parse_json_status_text (r : R) :
  json_plain (WifiStation.GetSsid r) = true ->
  json_plain (WifiStation.GetIpAddress r) = true ->
  parse_json (status_text r) = Parsed (status_report r) "".
Proof.
  intros Hssid Hip. unfold parse_json.
  assert (Hws : skip_ws (status_text r) = status_text r) by reflexivity.
  rewrite Hws.
  pose proof (status_text_length r) as Hlen.
  replace (S (2 * String.length (status_text r)))
    with (6 + (2 * String.length (status_text r) - 5))%nat by lia.
  now rewrite (parse_status_text r _ Hssid Hip).
Qed.

(** *** The reader never runs out of fuel *)

Lemma skip_ws_length (s : string) :
  (String.length (skip_ws s) <= String.length s)%nat.
Proof.
  induction s as [|c s IH]; cbn; [lia|].
  destruct (is_ws c); cbn; lia.
Qed.

Lemma map_parsed_inv {X Y} (f : X -> Y) (r : parse_result X) y rest :
  map_parsed f r = Parsed y rest -> exists x, r = Parsed x rest.
Proof.
  destruct r; cbn; intros H; [|discriminate H..].
  injection H as _ <-. eauto.
Qed.

Lemma map_parsed_fuel {X Y} (f : X -> Y) (r : parse_result X) :
  r <> OutOfFuel -> map_parsed f r <> OutOfFuel.
Proof. destruct r; cbn; congruence. Qed.

Lemma scan_string_body_fuel_length (n : nat) : forall s : string,
  (String.length s <= n)%nat ->
  scan_string_body s <> OutOfFuel /\
  forall x r, scan_string_body s = Parsed x r ->
              (String.length r < String.length s)%nat.
Proof.
  induction n as [|n IH]; intros s Hn.
  - destruct s; cbn in Hn; [|lia]. cbn. split; [discriminate|discriminate].
  - destruct s as [|c rest]; [cbn; split; discriminate|].
    cbn [String.length] in Hn. cbn [scan_string_body].
    destruct (Ascii.eqb c dquote).
    { split; [discriminate|]. intros x r H. injection H as _ <-.
      cbn; lia. }
    destruct (Ascii.eqb c "\").
    { destruct rest as [|e rest']; [split; discriminate|].
      cbn [String.length] in Hn.
      destruct (Ascii.eqb e "u").
      - destruct rest' as [|h1 [|h2 [|h3 [|h4 rest'']]]];
          try (split; discriminate).
        cbn [String.length] in Hn.
        destruct (hex_val h1), (hex_val h2), (hex_val h3), (hex_val h4);
          try (split; discriminate).
        destruct (IH rest'' ltac:(lia)) as [Hfuel Hlen].
        split; [apply map_parsed_fuel, Hfuel|].
        intros x r H. apply map_parsed_inv in H. destruct H as [x' H].
        specialize (Hlen _ _ H). cbn [String.length]. lia.
      - destruct (escape_char e); [|split; discriminate].
        destruct (IH rest' ltac:(lia)) as [Hfuel Hlen].
        split; [apply map_parsed_fuel, Hfuel|].
        intros x r H. apply map_parsed_inv in H. destruct H as [x' H].
        specialize (Hlen _ _ H). cbn [String.length]. lia. }
    destruct (is_control c); [split; discriminate|].
    destruct (IH rest ltac:(lia)) as [Hfuel Hlen].
    split; [apply map_parsed_fuel, Hfuel|].
    intros x r H. apply map_parsed_inv in H. destruct H as [x' H].
    specialize (Hlen _ _ H). cbn [String.length]. lia.
Qed.

Lemma scan_string_body_fuel (s : string) : scan_string_body s <> OutOfFuel.
Proof. apply (scan_string_body_fuel_length (String.length s) s); lia. Qed.

Lemma scan_string_body_length (s x r : string) :
  scan_string_body s = Parsed x r ->
  (String.length r < String.length s)%nat.
Proof. apply (scan_string_body_fuel_length (String.length s) s); lia. Qed.

Lemma scan_digits_length (s : string) :
  (String.length (snd (scan_digits s)) <= String.length s)%nat.
Proof.
  induction s as [|c s IH]; cbn; [lia|].
  destruct (digit_of_ascii c); [|cbn; lia].
  destruct (scan_digits s) as [ds r]. cbn in *. lia.
Qed.

Lemma scan_exponent_fuel_length (i : int) (f : uint) (s : string) :
  scan_exponent i f s <> OutOfFuel /\
  forall x r, scan_exponent i f s = Parsed x r ->
              (String.length r <= String.length s)%nat.
Proof.
  unfold scan_exponent. destruct s as [|c rest].
  { split; [discriminate|]. intros x r H. injection H as _ <-. lia. }
  destruct (Ascii.eqb c "e" || Ascii.eqb c "E").
  2:{ split; [discriminate|]. intros x r H. injection H as _ <-. lia. }
  match goal with |- context [scan_digits (snd ?sg)] =>
    assert (Hsg : (String.length (snd sg) <= String.length rest)%nat)
  end.
  { destruct rest as [|sg r]; [cbn; lia|].
    destruct (Ascii.eqb sg "-"); [cbn; lia|].
    destruct (Ascii.eqb sg "+"); cbn; lia. }
  match goal with |- context [scan_digits (snd ?sg)] =>
    pose proof (scan_digits_length (snd sg)) as Hd;
    destruct (scan_digits (snd sg)) as [e r0]
  end.
  cbn [snd] in Hd.
  destruct (nonempty_digits e); [|split; discriminate].
  split; [discriminate|]. intros x r H. injection H as _ <-.
  cbn [String.length]. lia.
Qed.

Lemma scan_number_fuel_length (s : string) :
  scan_number s <> OutOfFuel /\
  forall x r, scan_number s = Parsed x r ->
              (String.length r <= String.length s)%nat.
Proof.
  unfold scan_number.
  match goal with |- context [scan_digits (snd ?sg)] =>
    assert (Hsg : (String.length (snd sg) <= String.length s)%nat)
  end.
  { destruct s as [|c rest]; [cbn; lia|].
    destruct (Ascii.eqb c "-"); cbn; lia. }
  match goal with |- context [scan_digits (snd ?sg)] =>
    pose proof (scan_digits_length (snd sg)) as Hd;
    destruct (scan_digits (snd sg)) as [d r0]
  end.
  cbn [snd] in Hd.
  destruct (int_digits_ok d); [|split; discriminate].
  destruct r0 as [|c r'].
  { destruct (scan_exponent_fuel_length
                (if fst match s with
                        | EmptyString => (false, s)
                        | String c rest =>
                            if Ascii.eqb c "-" then (true, rest) else (false, s)
                        end then Neg d else Pos d) Nil EmptyString)
      as [Hf Hl].
    split; [exact Hf|]. intros x r H. specialize (Hl _ _ H). lia. }
  destruct (Ascii.eqb c ".").
  - pose proof (scan_digits_length r') as Hd'.
    destruct (scan_digits r') as [f r''].
    cbn [snd] in Hd'.
    destruct (nonempty_digits f); [|split; discriminate].
    match goal with |- context [scan_exponent ?i f r''] =>
      destruct (scan_exponent_fuel_length i f r'') as [Hf Hl]
    end.
    split; [exact Hf|]. intros x r H. specialize (Hl _ _ H).
    cbn [String.length] in *. lia.
  - match goal with |- context [scan_exponent ?i Nil ?t] =>
      destruct (scan_exponent_fuel_length i Nil t) as [Hf Hl]
    end.
    split; [exact Hf|]. intros x r H. specialize (Hl _ _ H).
    cbn [String.length] in *. lia.
Qed.

Lemma strip_prefix_length (p s r : string) :
  strip_prefix p s = Some r -> (String.length r <= String.length s)%nat.
Proof.
  revert s. induction p as [|a p IH]; intros s H; cbn in H.
  - injection H as <-. lia.
  - destruct s as [|b s]; [discriminate H|].
    destruct (Ascii.eqb a b); [|discriminate H].
    specialize (IH _ H). cbn. lia.
Qed.

Lemma scan_keyword_fuel_length (kw : string) (v : json) (s : string) :
  scan_keyword kw v s <> OutOfFuel /\
  forall x r, scan_keyword kw v s = Parsed x r ->
              (String.length r <= String.length s)%nat.
Proof.
  unfold scan_keyword. destruct (strip_prefix kw s) as [rest|] eqn:E.
  - split; [discriminate|]. intros x r H. injection H as _ <-.
    eapply strip_prefix_length, E.
  - split; discriminate.
Qed.

Lemma parse_members_unfold (fuel : nat) (c : ascii) (rest : string) :
  parse_members (S fuel) (String c rest) =
  if Ascii.eqb c dquote then parse_members (S fuel) (String dquote rest)
  else SyntaxError.
Proof.
  destruct (Ascii.eqb_spec c dquote) as [->|Hne]; [reflexivity|].
  cbn [parse_members].
  destruct (Ascii.eqb_spec c dquote) as [->|_]; [congruence|reflexivity].
Qed.

Lemma parse_elements_step (fuel : nat) (s : string) :
  parse_elements (S fuel) s =
  match parse_value fuel s with
  | Parsed v r1 =>
      match skip_ws r1 with
      | String sep r2 =>
          if Ascii.eqb sep "," then
            map_parsed (cons v) (parse_elements fuel (skip_ws r2))
          else if Ascii.eqb sep "]" then Parsed [v] r2
          else SyntaxError
      | EmptyString => SyntaxError
      end
  | SyntaxError => SyntaxError
  | OutOfFuel => OutOfFuel
  end.
Proof. reflexivity. Qed.

Ltac lengths :=
  repeat match goal with
  | H : context [skip_ws ?t] |- _ =>
      lazymatch goal with
      | _ : (String.length (skip_ws t) <= String.length t)%nat |- _ => fail
      | _ => pose proof (skip_ws_length t)
      end
  | |- context [skip_ws ?t] =>
      lazymatch goal with
      | _ : (String.length (skip_ws t) <= String.length t)%nat |- _ => fail
      | _ => pose proof (skip_ws_length t)
      end
  end;
  cbn [String.length] in *; lia.

(** With fuel beyond twice the length of the text the reader answers, and
    what it leaves unread is never longer than what it was given. *)
Lemma parse_fuel_enough (fuel : nat) : forall t : string,
  ((2 * String.length t + 1 <= fuel -> parse_value fuel t <> OutOfFuel)%nat /\
   (forall v r, parse_value fuel t = Parsed v r ->
                (String.length r <= String.length t)%nat)) /\
  ((2 * String.length t + 1 <= fuel -> parse_members fuel t <> OutOfFuel)%nat /\
   (forall v r, parse_members fuel t = Parsed v r ->
                (String.length r <= String.length t)%nat)) /\
  ((2 * String.length t + 2 <= fuel ->
    parse_elements fuel t <> OutOfFuel)%nat /\
   (forall v r, parse_elements fuel t = Parsed v r ->
                (String.length r <= String.length t)%nat)).
Proof.
  induction fuel as [|fuel IH]; intros t.
  { repeat split; cbn; try lia; discriminate. }
  assert (IHv := fun t => proj1 (IH t)).
  assert (IHm := fun t => proj1 (proj2 (IH t))).
  assert (IHe := fun t => proj2 (proj2 (IH t))).
  clear IH.
  split; [|split].
  - (* values *)
    destruct t as [|c rest]; [cbn; split; discriminate|].
    rewrite parse_value_step.
    destruct (Ascii.eqb c "{").
    { destruct (skip_ws rest) as [|c' rest'] eqn:Ews;
        [split; discriminate|].
      destruct (Ascii.eqb c' "}").
      - pose proof (skip_ws_length rest) as Hws. rewrite Ews in Hws.
        split; [discriminate|]. intros v r H. injection H as _ <-.
        lengths.
      - destruct (IHm (String c' rest')) as [Hf Hl].
        pose proof (skip_ws_length rest) as Hws. rewrite Ews in Hws.
        split.
        + intros Hfuel. apply map_parsed_fuel, Hf. lengths.
        + intros v r H. apply map_parsed_inv in H. destruct H as [x H].
          specialize (Hl _ _ H). lengths. }
    destruct (Ascii.eqb c "[").
    { destruct (skip_ws rest) as [|c' rest'] eqn:Ews;
        [split; discriminate|].
      destruct (Ascii.eqb c' "]").
      - pose proof (skip_ws_length rest) as Hws. rewrite Ews in Hws.
        split; [discriminate|]. intros v r H. injection H as _ <-.
        lengths.
      - destruct (IHe (String c' rest')) as [Hf Hl].
        pose proof (skip_ws_length rest) as Hws. rewrite Ews in Hws.
        split.
        + intros Hfuel. apply map_parsed_fuel, Hf. lengths.
        + intros v r H. apply map_parsed_inv in H. destruct H as [x H].
          specialize (Hl _ _ H). lengths. }
    destruct (Ascii.eqb c dquote).
    { split; [intros _; apply map_parsed_fuel, scan_string_body_fuel|].
      intros v r H. apply map_parsed_inv in H. destruct H as [x H].
      apply scan_string_body_length in H. lengths. }
    destruct (Ascii.eqb c "t");
      [destruct (scan_keyword_fuel_length "true" (JBool true) (String c rest));
       split; auto|].
    destruct (Ascii.eqb c "f");
      [destruct (scan_keyword_fuel_length "false" (JBool false)
                   (String c rest)); split; auto|].
    destruct (Ascii.eqb c "n");
      [destruct (scan_keyword_fuel_length "null" JNull (String c rest));
       split; auto|].
    destruct (scan_number_fuel_length (String c rest)) as [Hf Hl].
    split; [intros _; apply map_parsed_fuel, Hf|].
    intros v r H. apply map_parsed_inv in H. destruct H as [x H].
    apply (Hl _ _ H).
  - (* members *)
    destruct t as [|c rest]; [cbn; split; discriminate|].
    rewrite parse_members_unfold.
    destruct (Ascii.eqb c dquote); [|split; discriminate].
    rewrite parse_members_step.
    pose proof (scan_string_body_fuel rest) as Hkf.
    destruct (scan_string_body rest) as [key r1| |] eqn:Ekey;
      [|split; discriminate|congruence].
    apply scan_string_body_length in Ekey.
    pose proof (skip_ws_length r1) as Hws1.
    destruct (skip_ws r1) as [|colon r2]; [split; discriminate|].
    destruct (Ascii.eqb colon ":"); [|split; discriminate].
    pose proof (skip_ws_length r2) as Hws2.
    destruct (IHv (skip_ws r2)) as [Hvf Hvl].
    destruct (parse_value fuel (skip_ws r2)) as [v r3| |] eqn:Ev.
    + specialize (Hvl _ _ eq_refl).
      pose proof (skip_ws_length r3) as Hws3.
      destruct (skip_ws r3) as [|sep r4]; [split; discriminate|].
      destruct (Ascii.eqb sep ",").
      * pose proof (skip_ws_length r4) as Hws4.
        destruct (IHm (skip_ws r4)) as [Hmf Hml].
        split.
        -- intros Hfuel. apply map_parsed_fuel, Hmf. lengths.
        -- intros ms r H. apply map_parsed_inv in H. destruct H as [x H].
           specialize (Hml _ _ H). lengths.
      * destruct (Ascii.eqb sep "}"); [|split; discriminate].
        split; [discriminate|]. intros ms r H. injection H as _ <-. lengths.
    + split; discriminate.
    + split; [|discriminate]. intros Hfuel _. apply Hvf; [|reflexivity].
      lengths.
  - (* elements *)
    rewrite parse_elements_step.
    destruct (IHv t) as [Hvf Hvl].
    destruct (parse_value fuel t) as [v r1| |] eqn:Ev.
    + specialize (Hvl _ _ eq_refl).
      pose proof (skip_ws_length r1) as Hws1.
      destruct (skip_ws r1) as [|sep r2]; [split; discriminate|].
      destruct (Ascii.eqb sep ",").
      * pose proof (skip_ws_length r2) as Hws2.
        destruct (IHe (skip_ws r2)) as [Hef Hel].
        split.
        -- intros Hfuel. apply map_parsed_fuel, Hef. lengths.
        -- intros l r H. apply map_parsed_inv in H. destruct H as [x H].
           specialize (Hel _ _ H). lengths.
      * destruct (Ascii.eqb sep "]"); [|split; discriminate].
        split; [discriminate|]. intros l r H. injection H as _ <-. lengths.
    + split; discriminate.
    + split; [|discriminate]. intros Hfuel _. apply Hvf; [|reflexivity].
      lengths.
Qed.

(** Every text is either read as a JSON value or refused. *)
Lemma parse_json_total (t : string) : parse_json t <> OutOfFuel.
Proof.
  unfold parse_json.
  destruct (parse_fuel_enough (S (2 * String.length t)) (skip_ws t))
    as [[Hf _] _].
  pose proof (skip_ws_length t) as Hws.
  destruct (parse_value (S (2 * String.length t)) (skip_ws t)) as [v r| |].
  - destruct (skip_ws r); discriminate.
  - discriminate.
  - exfalso. apply Hf; [lia|reflexivity].
Qed.

(** *** How long the status text gets *)

Lemma string_of_uint_length (d : uint) :
  String.length (NilEmpty.string_of_uint d) = nb_digits d.
Proof. induction d; cbn; congruence. Qed.

Lemma usize_nb_digits (d : uint) :
  Unsigned.usize d = N.of_nat (nb_digits d).
Proof.
  induction d as [|d IH|d IH|d IH|d IH|d IH|d IH|d IH|d IH|d IH|d IH];
    cbn [Unsigned.usize nb_digits];
    [reflexivity | rewrite Nat2N.inj_succ, IH; reflexivity ..].
Qed.

Lemma of_uint_acc_lower (l : uint) (k : positive) :
  (10 ^ Unsigned.usize l <= N.pos (Pos.of_uint_acc l k))%N.
Proof.
  rewrite Unsigned.of_uint_acc_rev.
  assert (0 < 10 ^ Unsigned.usize l)%N
    by (apply N.neq_0_lt_0, N.pow_nonzero; discriminate).
  nia.
Qed.

Lemma of_uint_acc_digits (l : uint) (k p : positive) (n : nat) :
  N.pos (Pos.of_uint_acc l k) = N.pos p ->
  (N.pos p < 10 ^ N.of_nat n)%N ->
  (S (nb_digits l) <= n)%nat.
Proof.
  intros Hof Hp.
  pose proof (of_uint_acc_lower l k) as Hlow. rewrite Hof in Hlow.
  assert (Hlt : (10 ^ Unsigned.usize l < 10 ^ N.of_nat n)%N) by lia.
  apply N.pow_lt_mono_r_iff in Hlt; [|lia].
  rewrite usize_nb_digits in Hlt. lia.
Qed.

(** A positive number below [10 ^ n] is written with at most [n] digits. *)
Lemma to_uint_digits (p : positive) (n : nat) :
  (N.pos p < 10 ^ N.of_nat n)%N -> (nb_digits (Pos.to_uint p) <= n)%nat.
Proof.
  intros Hp.
  pose proof (DecimalPos.Unsigned.of_to p) as Hof.
  pose proof (to_uint_ok p) as Hok.
  destruct (Pos.to_uint p) as [|l|l|l|l|l|l|l|l|l|l] eqn:E;
    cbn [nb_digits]; cbn [Pos.of_uint] in Hof;
    try (eapply of_uint_acc_digits; eassumption).
  - discriminate Hof.
  - destruct l; try discriminate Hok. cbn in Hof. discriminate Hof.
Qed.

Lemma format_d_length (z : Z) (n : nat) :
  - 10 ^ Z.of_nat n < z < 10 ^ Z.of_nat n ->
  (String.length (format_d z) <= S n)%nat.
Proof.
  intros Hz. unfold format_d.
  destruct z as [|p|p]; cbn [Z.to_int NilZero.string_of_int].
  - cbn. lia.
  - rewrite (NilZero_string_of_uint_nonnil _ (Unsigned.to_uint_nonnil p)).
    rewrite string_of_uint_length.
    enough (nb_digits (Pos.to_uint p) <= n)%nat by lia.
    apply to_uint_digits.
    change 10%N with (Z.to_N 10). rewrite <- (N2Z.id (N.of_nat n)).
    rewrite <- Z2N.inj_pow by lia. rewrite nat_N_Z. lia.
  - rewrite (NilZero_string_of_uint_nonnil _ (Unsigned.to_uint_nonnil p)).
    cbn [String.length]. rewrite string_of_uint_length.
    enough (nb_digits (Pos.to_uint p) <= n)%nat by lia.
    apply to_uint_digits.
    change 10%N with (Z.to_N 10). rewrite <- (N2Z.id (N.of_nat n)).
    rewrite <- Z2N.inj_pow by lia. rewrite nat_N_Z. lia.
Qed.

Lemma c_str_length (t : string) :
  (String.length (c_str t) <= String.length t)%nat.
Proof.
  induction t as [|c t IH]; cbn; [lia|].
  destruct (Ascii.eqb c NUL); cbn; lia.
Qed.

Lemma length_append (a b : string) :
  String.length (a ++ b) = (String.length a + String.length b)%nat.
Proof. induction a as [|c a IH]; cbn; [reflexivity|now rewrite IH]. Qed.

(** The length of the formatted text: 143 bytes of fixed text and the four
    converted arguments. *)
Lemma status_text_length_eq (r : R) :
  String.length (status_text r) =
  (143 + (if WifiStation.IsConnected r then 4 else 5)
   + String.length (c_str (WifiStation.GetSsid r))
   + String.length (c_str (WifiStation.GetIpAddress r))
   + String.length (format_d (WifiStation.GetRssi r)))%nat.
Proof.
  unfold status_text, status_args.
  destruct (WifiStation.IsConnected r); cbn;
    rewrite !length_append; cbn; rewrite !length_append; cbn;
    rewrite !length_append; cbn; lia.
Qed.

(** An SSID of at most 32 bytes, an address of at most 45 and an RSSI that
    is a 32-bit [int] never reach the end of the buffer. *)
Lemma status_text_fits (r : R) :
  (String.length (WifiStation.GetSsid r) <= 32)%nat ->
  (String.length (WifiStation.GetIpAddress r) <= 45)%nat ->
  - 2 ^ 31 <= WifiStation.GetRssi r < 2 ^ 31 ->
  (String.length (status_text r) <= 255)%nat.
Proof.
  intros Hssid Hip Hrssi. rewrite status_text_length_eq.
  pose proof (c_str_length (WifiStation.GetSsid r)).
  pose proof (c_str_length (WifiStation.GetIpAddress r)).
  assert (Hdec : - 10 ^ Z.of_nat 10 < WifiStation.GetRssi r < 10 ^ Z.of_nat 10)
    by (change (Z.of_nat 10) with 10; lia).
  pose proof (format_d_length (WifiStation.GetRssi r) 10 Hdec).
  destruct (WifiStation.IsConnected r); lia.
Qed.

(** *** Status and identity texts *)

Lemma no_nul_app (a b : string) :
  no_nul (a ++ b) = no_nul a && no_nul b.
Proof.
  induction a as [|c a IH]; cbn; [reflexivity|].
  now rewrite IH, andb_assoc.
Qed.

Lemma no_nul_c_str (s : string) : no_nul (c_str s) = true.
Proof.
  induction s as [|c s IH]; cbn; [reflexivity|].
  destruct (Ascii.eqb c NUL) eqn:E; cbn; [reflexivity|].
  now rewrite E, IH.
Qed.

Lemma no_nul_string_of_uint (d : uint) :
  no_nul (NilEmpty.string_of_uint d) = true.
Proof. induction d; cbn; auto. Qed.

Lemma no_nul_format_d (z : Z) : no_nul (format_d z) = true.
Proof.
  unfold format_d.
  destruct z as [|p|p]; cbn [Z.to_int NilZero.string_of_int];
    try reflexivity;
    rewrite (NilZero_string_of_uint_nonnil _ (Unsigned.to_uint_nonnil p));
    cbn [no_nul]; now rewrite no_nul_string_of_uint.
Qed.

Lemma no_nul_take (n : nat) (s : string) :
  no_nul s = true -> no_nul (take n s) = true.
Proof.
  revert n. induction s as [|c s IH]; intros [|n] H; cbn in *;
    try reflexivity.
  apply andb_true_iff in H. destruct H as [Hc Hs].
  now rewrite Hc, (IH n Hs).
Qed.

(** The formatted status text holds no NUL: [std::string(buffer)] keeps all
    that [snprintf] left in the buffer. *)
Lemma no_nul_status_text (r : R) : no_nul (status_text r) = true.
Proof.
  unfold status_text, status_args. cbn.
  repeat (rewrite no_nul_app; cbn).
  now rewrite !no_nul_c_str, no_nul_format_d.
Qed.

Lemma GetDeviceStatusJson_run s :
  GetDeviceStatusJson s =
  Done (take 255 (status_text (wifi_station_ (this s)))) s.
Proof.
  change (GetDeviceStatusJson s) with
    (@Done (State R A) string
       (c_str (take 255 (status_text (wifi_station_ (this s))))) s).
  now rewrite (c_str_no_nul _ (no_nul_take 255 _ (no_nul_status_text _))).
Qed.

(** C9. The string [GetDeviceStatusJson()] returns is shorter than 256
    bytes whatever the station reports: it is the first 255 bytes of the
    formatted text, the whole of it when that fits. *)
Theorem GetDeviceStatusJson_bounded s :
  exists text,
    GetDeviceStatusJson s = Done text s /\
    (String.length text < 256)%nat /\
    text = take 255 (status_text (wifi_station_ (this s))) /\
    String.length text =
      Nat.min 255 (String.length (status_text (wifi_station_ (this s)))).
Proof.
  eexists. split; [apply GetDeviceStatusJson_run|].
  rewrite length_take. repeat split. lia.
Qed.

(** What the function gets right.  When the SSID and the IP address hold
    only bytes JSON allows unescaped and the formatted text fits the 255
    bytes the buffer takes, [GetDeviceStatusJson()] returns a text that
    reads back as a JSON object with exactly the keys wifi_connected,
    wifi_ssid, ip_address and rssi, in that order, holding what
    [IsConnected], [GetSsid], [GetIpAddress] and [GetRssi] report.  (The
    reader works on bytes; it does not judge the character encoding.) *)
Theorem GetDeviceStatusJson_faithful s :
  json_plain (WifiStation.GetSsid (wifi_station_ (this s))) = true ->
  json_plain (WifiStation.GetIpAddress (wifi_station_ (this s))) = true ->
  (String.length (status_text (wifi_station_ (this s))) <= 255)%nat ->
  status_json_faithful s.
Proof.
  intros Hssid Hip Hfits. unfold status_json_faithful.
  eexists. split; [apply GetDeviceStatusJson_run|].
  rewrite (take_all _ _ Hfits).
  apply parse_json_status_text; assumption.
Qed.

(** What a real station can report always fits: an SSID has at most 32
    bytes, the text of an address at most 45, the RSSI is an [int].  For
    such a station only bytes that would need escaping are in the way. *)
Corollary GetDeviceStatusJson_faithful_in_range s :
  json_plain (WifiStation.GetSsid (wifi_station_ (this s))) = true ->
  json_plain (WifiStation.GetIpAddress (wifi_station_ (this s))) = true ->
  (String.length (WifiStation.GetSsid (wifi_station_ (this s))) <= 32)%nat ->
  (String.length (WifiStation.GetIpAddress (wifi_station_ (this s))) <= 45)%nat ->
  - 2 ^ 31 <= WifiStation.GetRssi (wifi_station_ (this s)) < 2 ^ 31 ->
  status_json_faithful s.
Proof.
  intros Hssid Hip Hlssid Hlip Hrssi. unfold status_json_faithful.
  eexists. split; [apply GetDeviceStatusJson_run|].
  rewrite (take_all _ _ (status_text_fits _ Hlssid Hlip Hrssi)).
  apply parse_json_status_text; assumption.
Qed.

(** C4. [GetBoardJson()] returns the same bytes in every state and leaves
    the state alone; the text reads as a JSON object in which the display is
    240 by 240 of type "st7789" and the audio rates are 16000 in, 24000
    out. *)
Theorem GetBoardJson_stable s1 s2 :
  exists text j,
    GetBoardJson s1 = Done text s1 /\
    GetBoardJson s2 = Done text s2 /\
    parse_json text = Parsed j "" /\
    is_object j = true /\
    at_path ["display"; "width"] j = Some (JInteger 240) /\
    at_path ["display"; "height"] j = Some (JInteger 240) /\
    at_path ["display"; "type"] j = Some (JString "st7789") /\
    at_path ["audio"; "input_sample_rate"] j = Some (JInteger 16000) /\
    at_path ["audio"; "output_sample_rate"] j = Some (JInteger 24000).
Proof.
  exists board_json_literal.
  eexists. split; [reflexivity|]. split; [reflexivity|].
  split; [vm_compute; reflexivity|].
  repeat split.
Qed.
(** * Further properties of the code *)

(** ** Bring-up *)

Ltac run_bringup :=
  cbv [Esp32C3SuperMiniBoard_ctor InitializeSpi InitializeLcdDisplay
       InitializeButtons ESP_ERROR_CHECK spi_bus_initialize
       esp_lcd_new_panel_io_spi esp_lcd_new_panel_st7789 new_SpiLcdDisplay
       ESP_LOG emit on_world on_this read bind ret abort
       set_trace set_heap set_display_ set_boot_button_
       this world app led audio_codec heap hw trace
       boot_button_ display_ wifi_station_ gpio_num on_click fst snd
       spi_bus_initialize_ret esp_lcd_new_panel_io_spi_ret panel_io_handle
       esp_lcd_new_panel_st7789_ret panel_handle].

(** X1. When the three checked driver calls succeed, the constructor makes
    its outgoing calls in one fixed order: bus, panel I/O, panel driver,
    reset, init, colour inversion, XY swap, mirror, display on, display
    object.  The panel driver and the display object are given the same
    mirror and swap flags, and the display object the handles the drivers
    handed out. *)
Theorem Esp32C3SuperMiniBoard_ctor_order (w : World A) :
  spi_bus_initialize_ret (hw w) = ESP_OK ->
  esp_lcd_new_panel_io_spi_ret (hw w) = ESP_OK ->
  esp_lcd_new_panel_st7789_ret (hw w) = ESP_OK ->
  exists s0 buscfg,
    Esp32C3SuperMiniBoard_ctor w = Done tt s0 /\
    trace (world s0) =
      (trace w ++
       [Call_spi_bus_initialize SPI2_HOST buscfg SPI_DMA_CH_AUTO;
        Call_ESP_LOG LOGD TAG "Install panel IO";
        Call_esp_lcd_new_panel_io_spi SPI2_HOST
          {| cs_gpio_num := DISPLAY_CS_PIN; dc_gpio_num := DISPLAY_DC_PIN;
             spi_mode := DISPLAY_SPI_MODE; pclk_hz := 40000000;
             trans_queue_depth := 10; lcd_cmd_bits := 8;
             lcd_param_bits := 8 |};
        Call_ESP_LOG LOGD TAG "Install LCD driver";
        Call_esp_lcd_new_panel_st7789 (panel_io_handle (hw w))
          {| reset_gpio_num := DISPLAY_RST_PIN;
             rgb_ele_order := DISPLAY_RGB_ORDER; bits_per_pixel := 16 |};
        Call_esp_lcd_panel_reset (panel_handle (hw w));
        Call_esp_lcd_panel_init (panel_handle (hw w));
        Call_esp_lcd_panel_invert_color (panel_handle (hw w))
          DISPLAY_INVERT_COLOR;
        Call_esp_lcd_panel_swap_xy (panel_handle (hw w)) DISPLAY_SWAP_XY;
        Call_esp_lcd_panel_mirror (panel_handle (hw w))
          DISPLAY_MIRROR_X DISPLAY_MIRROR_Y;
        Call_esp_lcd_panel_disp_on_off (panel_handle (hw w)) true;
        Call_new_SpiLcdDisplay (heap_addr (length (heap w)))
          {| panel_io_ := panel_io_handle (hw w);
             panel_ := panel_handle (hw w);
             width_ := DISPLAY_WIDTH; height_ := DISPLAY_HEIGHT;
             offset_x_ := DISPLAY_OFFSET_X; offset_y_ := DISPLAY_OFFSET_Y;
             mirror_x_ := DISPLAY_MIRROR_X; mirror_y_ := DISPLAY_MIRROR_Y;
             swap_xy_ := DISPLAY_SWAP_XY |}])%list /\
    mosi_io_num buscfg = DISPLAY_MOSI_PIN /\
    sclk_io_num buscfg = DISPLAY_CLK_PIN /\
    miso_io_num buscfg = GPIO_NUM_NC /\
    quadwp_io_num buscfg = GPIO_NUM_NC /\
    quadhd_io_num buscfg = GPIO_NUM_NC.
Proof.
  destruct w as [a l c h [r1 r2 ioh r3 ph] t]. cbn.
  intros -> -> ->.
  run_bringup. cbn [Z.eqb ESP_OK].
  do 2 eexists. split; [reflexivity|]. cbn.
  repeat rewrite <- app_assoc. cbn.
  repeat split; reflexivity.
Qed.

(** X2. A bring-up failure is fatal and stops the constructor on the spot:
    whichever of the three checked driver calls first returns an error, the
    constructor aborts right after that call.  No later driver call is made,
    no panel command sent, no display object allocated; [display_] is still
    null and the button has no callback. *)
Theorem Esp32C3SuperMiniBoard_ctor_fatal (w : World A) :
  (spi_bus_initialize_ret (hw w) <> ESP_OK ->
   exists s buscfg,
     Esp32C3SuperMiniBoard_ctor w = Aborted s /\
     trace (world s) =
       (trace w ++
        [Call_spi_bus_initialize SPI2_HOST buscfg SPI_DMA_CH_AUTO])%list /\
     nothing_built w s)
  /\
  (spi_bus_initialize_ret (hw w) = ESP_OK ->
   esp_lcd_new_panel_io_spi_ret (hw w) <> ESP_OK ->
   exists s buscfg iocfg,
     Esp32C3SuperMiniBoard_ctor w = Aborted s /\
     trace (world s) =
       (trace w ++
        [Call_spi_bus_initialize SPI2_HOST buscfg SPI_DMA_CH_AUTO;
         Call_ESP_LOG LOGD TAG "Install panel IO";
         Call_esp_lcd_new_panel_io_spi SPI2_HOST iocfg])%list /\
     nothing_built w s)
  /\
  (spi_bus_initialize_ret (hw w) = ESP_OK ->
   esp_lcd_new_panel_io_spi_ret (hw w) = ESP_OK ->
   esp_lcd_new_panel_st7789_ret (hw w) <> ESP_OK ->
   exists s buscfg iocfg panelcfg,
     Esp32C3SuperMiniBoard_ctor w = Aborted s /\
     trace (world s) =
       (trace w ++
        [Call_spi_bus_initialize SPI2_HOST buscfg SPI_DMA_CH_AUTO;
         Call_ESP_LOG LOGD TAG "Install panel IO";
         Call_esp_lcd_new_panel_io_spi SPI2_HOST iocfg;
         Call_ESP_LOG LOGD TAG "Install LCD driver";
         Call_esp_lcd_new_panel_st7789 (panel_io_handle (hw w)) panelcfg])%list
     /\
     nothing_built w s).
Proof.
  destruct w as [a l c h [r1 r2 ioh r3 ph] t]. cbn.
  split; [|split].
  - intros H1. run_bringup.
    destruct (Z.eqb_spec r1 ESP_OK) as [E|_]; [contradiction|].
    do 2 eexists. split; [reflexivity|]. cbn.
    split; [reflexivity|]. repeat split.
  - intros -> H2. run_bringup. rewrite Z.eqb_refl.
    destruct (Z.eqb_spec r2 ESP_OK) as [E|_]; [contradiction|].
    do 3 eexists. split; [reflexivity|]. cbn.
    repeat rewrite <- app_assoc. cbn.
    split; [reflexivity|]. repeat split.
  - intros -> -> H3. run_bringup. rewrite !Z.eqb_refl.
    destruct (Z.eqb_spec r3 ESP_OK) as [E|_]; [contradiction|].
    do 4 eexists. split; [reflexivity|]. cbn.
    repeat rewrite <- app_assoc. cbn.
    split; [reflexivity|]. repeat split.
Qed.

(** ** Bus configuration *)

Lemma no_wrap (n : Z) :
  0 <= n -> n * sizeof_uint16_t < 2 ^ 31 ->
  to_int (to_size_t (to_size_t (to_int n) * sizeof_uint16_t)) =
  n * sizeof_uint16_t.
Proof.
  unfold to_int, to_size_t, sizeof_uint16_t. intros H0 H1.
  rewrite (Z.mod_small (n + 2 ^ 31)) by lia.
  replace (n + 2 ^ 31 - 2 ^ 31) with n by lia.
  rewrite (Z.mod_small n) by lia.
  rewrite (Z.mod_small (n * 2)) by lia.
  rewrite (Z.mod_small (n * 2 + 2 ^ 31)) by lia. lia.
Qed.

(** X4. For a panel whose frame of 16-bit pixels is below 2 GiB, the
    arithmetic of [InitializeSpi] does not wrap: the bus is asked for a
    maximum transfer of exactly width x height x 2 bytes, with MISO and the
    two quad pins not connected. *)
Theorem InitializeSpi_max_transfer_sz s :
  0 <= DISPLAY_WIDTH * DISPLAY_HEIGHT ->
  DISPLAY_WIDTH * DISPLAY_HEIGHT * 2 < 2 ^ 31 ->
  spi_bus_initialize_ret (hw (world s)) = ESP_OK ->
  exists s',
    InitializeSpi s = Done tt s' /\
    this s' = this s /\
    trace (world s') =
      (trace (world s) ++
       [Call_spi_bus_initialize SPI2_HOST
          {| mosi_io_num := DISPLAY_MOSI_PIN;
             miso_io_num := -1;
             sclk_io_num := DISPLAY_CLK_PIN;
             quadwp_io_num := -1;
             quadhd_io_num := -1;
             max_transfer_sz := DISPLAY_WIDTH * DISPLAY_HEIGHT * 2 |}
          SPI_DMA_CH_AUTO])%list.
Proof.
  intros H0 H1 Hok.
  unfold InitializeSpi. rewrite (no_wrap _ H0 H1).
  destruct s as [b [a l c h [r1 r2 ioh r3 ph] t]]. cbn in Hok. subst r1.
  run_bringup. rewrite Z.eqb_refl.
  eexists. split; [reflexivity|]. cbn. split; reflexivity.
Qed.

(** ** Life of the display object *)

Lemma nth_error_free_cell (n : nat) (h : list (option SpiLcdDisplay)) :
  (n < length h)%nat -> nth_error (free_cell n h) n = Some None.
Proof.
  revert n. induction h as [|x h IH]; intros [|n] H; cbn in *;
    try lia; [reflexivity|]. apply IH. lia.
Qed.

Lemma nth_error_free_cell_other (n m : nat) (h : list (option SpiLcdDisplay)) :
  m <> n -> nth_error (free_cell n h) m = nth_error h m.
Proof.
  revert n m. induction h as [|x h IH]; intros [|n] [|m] H; cbn;
    try reflexivity; try congruence.
  apply IH. congruence.
Qed.

Lemma nth_error_snoc {X} (l : list X) (x : X) :
  nth_error (l ++ [x]) (length l) = Some x.
Proof. induction l as [|y l IH]; cbn; [reflexivity|exact IH]. Qed.

Lemma Esp32C3SuperMiniBoard_ctor_heap (w : World A) :
  spi_bus_initialize_ret (hw w) = ESP_OK ->
  esp_lcd_new_panel_io_spi_ret (hw w) = ESP_OK ->
  esp_lcd_new_panel_st7789_ret (hw w) = ESP_OK ->
  exists s0,
    Esp32C3SuperMiniBoard_ctor w = Done tt s0 /\
    display_ (this s0) = heap_addr (length (heap w)) /\
    heap (world s0) =
      (heap w ++
       [Some {| panel_io_ := panel_io_handle (hw w);
                panel_ := panel_handle (hw w);
                width_ := DISPLAY_WIDTH; height_ := DISPLAY_HEIGHT;
                offset_x_ := DISPLAY_OFFSET_X; offset_y_ := DISPLAY_OFFSET_Y;
                mirror_x_ := DISPLAY_MIRROR_X; mirror_y_ := DISPLAY_MIRROR_Y;
                swap_xy_ := DISPLAY_SWAP_XY |}])%list.
Proof.
  destruct w as [a l c h [r1 r2 ioh r3 ph] t]. cbn.
  intros -> -> ->.
  run_bringup. cbn [Z.eqb ESP_OK].
  eexists. split; [reflexivity|]. cbn. split; reflexivity.
Qed.

(** X3. The handle [GetDisplay()] hands out stays valid for the life of the
    board: after a successful construction and any sequence of requests,
    [display_] still points to a live heap object, and that object is the
    one the constructor built from the manifest's geometry and flags and
    the two driver handles. *)
Theorem display_object_alive (w : World A) :
  spi_bus_initialize_ret (hw w) = ESP_OK ->
  esp_lcd_new_panel_io_spi_ret (hw w) = ESP_OK ->
  esp_lcd_new_panel_st7789_ret (hw w) = ESP_OK ->
  exists s0 cell,
    Esp32C3SuperMiniBoard_ctor w = Done tt s0 /\
    nth_error (heap w) cell = None /\
    forall qs, exists s,
      serve_all qs s0 = Done tt s /\
      display_ (this s) = heap_addr cell /\
      nth_error (heap (world s)) cell =
        Some (Some {| panel_io_ := panel_io_handle (hw w);
                      panel_ := panel_handle (hw w);
                      width_ := DISPLAY_WIDTH; height_ := DISPLAY_HEIGHT;
                      offset_x_ := DISPLAY_OFFSET_X;
                      offset_y_ := DISPLAY_OFFSET_Y;
                      mirror_x_ := DISPLAY_MIRROR_X;
                      mirror_y_ := DISPLAY_MIRROR_Y;
                      swap_xy_ := DISPLAY_SWAP_XY |}).
Proof.
  intros Hspi Hio Hpanel.
  destruct (Esp32C3SuperMiniBoard_ctor_heap w Hspi Hio Hpanel)
    as (s0 & Hctor & Hdisplay & Hheap).
  exists s0, (length (heap w)).
  split; [exact Hctor|].
  split; [apply nth_error_None; lia|].
  intros qs.
  destruct (serve_all_preserves qs s0) as (s & Hrun & Hd & _ & Hh & _).
  exists s. split; [exact Hrun|].
  split; [congruence|].
  rewrite Hh, Hheap. apply nth_error_snoc.
Qed.

(** X5. The destructor deletes the display object once: with [display_]
    pointing to a live object it frees exactly that heap cell, leaves every
    other cell alone and clears the pointer, so that running it again
    deletes nothing. *)
Theorem Esp32C3SuperMiniBoard_dtor_once s (cell : nat) (obj : SpiLcdDisplay) :
  display_ (this s) = heap_addr cell ->
  nth_error (heap (world s)) cell = Some (Some obj) ->
  exists s1,
    Esp32C3SuperMiniBoard_dtor s = Done tt s1 /\
    display_ (this s1) = nullptr /\
    nth_error (heap (world s1)) cell = Some None /\
    (forall other, other <> cell ->
       nth_error (heap (world s1)) other = nth_error (heap (world s)) other) /\
    trace (world s1) =
      (trace (world s) ++ [Call_delete_SpiLcdDisplay (heap_addr cell)])%list /\
    Esp32C3SuperMiniBoard_dtor s1 = Done tt s1.
Proof.
  intros Hd Hlive.
  assert (Hlt : (cell < length (heap (world s)))%nat).
  { apply nth_error_Some. congruence. }
  unfold Esp32C3SuperMiniBoard_dtor, delete_SpiLcdDisplay.
  cbv [emit on_world on_this read bind ret].
  rewrite Hd. cbn [is_null].
  eexists. split; [reflexivity|]. cbn.
  split; [reflexivity|].
  split; [apply nth_error_free_cell, Hlt|].
  split; [intros other Hne; apply nth_error_free_cell_other, Hne|].
  split; reflexivity.
Qed.

(** ** What a sequence of requests does *)

Lemma boot_button_click_cases s :
  boot_button_click s =
    Done tt
      {| this := set_wifi_station_
                   (WifiStation.Start
                      (WifiStation.Stop (wifi_station_ (this s))))
                   (this s);
         world := set_app (Application.ToggleChatState (app (world s)))
                    (set_trace
                       (trace (world s) ++
                        [Call_WifiStation_Stop;
                         Call_vTaskDelay (pdMS_TO_TICKS 100);
                         Call_WifiStation_Start;
                         Call_ESP_LOG LOGI TAG "WiFi configuration reset";
                         Call_Application_ToggleChatState])%list
                       (world s)) |} \/
  boot_button_click s =
    Done tt
      {| this := this s;
         world := set_app (Application.ToggleChatState (app (world s)))
                    (set_trace
                       (trace (world s) ++ [Call_Application_ToggleChatState])
                       (world s)) |}.
Proof.
  destruct (Application.GetDeviceState (app (world s))) eqn:Hstate.
  - destruct (WifiStation.IsConnected (wifi_station_ (this s))) eqn:Hconn.
    + right. apply boot_button_click_plain. now right.
    + left. now apply boot_button_click_reset.
  - right. apply boot_button_click_plain. left. congruence.
Qed.

Lemma count_app {X} (f : X -> bool) (a b : list X) :
  count f (a ++ b) = (count f a + count f b)%nat.
Proof. unfold count. now rewrite List.filter_app, List.length_app. Qed.

(** What one request adds to the trace and does to the statics. *)
Lemma serve_effects (q : Request) s :
  exists s' evs,
    serve q s = Done tt s' /\
    trace (world s') = (trace (world s) ++ evs)%list /\
    forallb (fun e => negb (is_bringup e)) evs = true /\
    count is_led_ctor evs =
      (if is_GetLed q
       then match led (world s) with Some _ => 0 | None => 1 end
       else 0)%nat /\
    count is_codec_ctor evs =
      (if is_GetAudioCodec q
       then match audio_codec (world s) with Some _ => 0 | None => 1 end
       else 0)%nat /\
    (led (world s') = None <->
     led (world s) = None /\ is_GetLed q = false) /\
    (audio_codec (world s') = None <->
     audio_codec (world s) = None /\ is_GetAudioCodec q = false).
Proof.
  assert (Hnil : forall t : list Event, t = (t ++ [])%list)
    by (intros t; now rewrite List.app_nil_r).
  destruct q;
    try (run_method; exists s, []; split; [now destruct s|];
         split; [apply Hnil|]; cbn; intuition congruence).
  - run_method. destruct (led (world s)) eqn:E.
    + exists s, []. split; [now destruct s|].
      split; [apply Hnil|]. cbn. rewrite E. intuition congruence.
    + do 2 eexists. split; [reflexivity|]. cbn.
      split; [reflexivity|]. cbn. intuition congruence.
  - run_method. destruct (audio_codec (world s)) eqn:E.
    + exists s, []. split; [now destruct s|].
      split; [apply Hnil|]. cbn. rewrite E. intuition congruence.
    + do 2 eexists. split; [reflexivity|]. cbn.
      split; [reflexivity|]. cbn. intuition congruence.
  - run_method. do 2 eexists. split; [reflexivity|]. cbn.
    split; [reflexivity|]. cbn. intuition congruence.
  - run_method. do 2 eexists. split; [reflexivity|]. cbn.
    split; [reflexivity|]. cbn. intuition congruence.
  - cbv [serve click read bind].
    destruct (on_click (boot_button_ (this s))) as [[]|].
    + cbv [run_callback].
      destruct (boot_button_click_cases s) as [H|H]; rewrite H;
        do 2 eexists; (split; [reflexivity|]); cbn;
        (split; [reflexivity|]); cbn; intuition congruence.
    + exists s, []. split; [reflexivity|].
      split; [apply Hnil|]. cbn. intuition congruence.
Qed.

Lemma serve_app (q : Request) s :
  exists s',
    serve q s = Done tt s' /\
    boot_button_ (this s') = boot_button_ (this s) /\
    app (world s') =
      (if is_click q
       then match on_click (boot_button_ (this s)) with
            | Some _ => Application.ToggleChatState (app (world s))
            | None => app (world s)
            end
       else app (world s)).
Proof.
  destruct q;
    try (run_method; eexists; split; [reflexivity|]; cbn; split;
         reflexivity).
  - run_method. destruct (led (world s));
      eexists; (split; [reflexivity|]); cbn; split; reflexivity.
  - run_method. destruct (audio_codec (world s));
      eexists; (split; [reflexivity|]); cbn; split; reflexivity.
  - cbv [serve click read bind].
    destruct (on_click (boot_button_ (this s))) as [[]|] eqn:E.
    + cbv [run_callback].
      destruct (boot_button_click_cases s) as [H|H]; rewrite H;
        eexists; (split; [reflexivity|]); cbn; split; reflexivity.
    + exists s. cbn. repeat split.
Qed.

Lemma serve_all_effects (qs : list Request) s :
  exists s' evs,
    serve_all qs s = Done tt s' /\
    trace (world s') = (trace (world s) ++ evs)%list /\
    forallb (fun e => negb (is_bringup e)) evs = true /\
    count is_led_ctor evs =
      match led (world s) with
      | Some _ => 0
      | None => if existsb is_GetLed qs then 1 else 0
      end%nat /\
    count is_codec_ctor evs =
      match audio_codec (world s) with
      | Some _ => 0
      | None => if existsb is_GetAudioCodec qs then 1 else 0
      end%nat /\
    (led (world s') = None <->
     led (world s) = None /\ existsb is_GetLed qs = false) /\
    (audio_codec (world s') = None <->
     audio_codec (world s) = None /\ existsb is_GetAudioCodec qs = false).
Proof.
  revert s. induction qs as [|q qs IH]; intros s.
  - exists s, []. cbn. rewrite List.app_nil_r.
    repeat split; try tauto;
      [destruct (led (world s))|destruct (audio_codec (world s))];
      reflexivity.
  - destruct (serve_effects q s)
      as (s1 & e1 & Hrun1 & Ht1 & Hb1 & Hl1 & Hc1 & Hln1 & Hcn1).
    destruct (IH s1)
      as (s2 & e2 & Hrun2 & Ht2 & Hb2 & Hl2 & Hc2 & Hln2 & Hcn2).
    exists s2, (e1 ++ e2)%list.
    cbn [serve_all existsb]. unfold bind at 1. rewrite Hrun1.
    split; [exact Hrun2|].
    split; [now rewrite Ht2, Ht1, List.app_assoc|].
    split; [now rewrite forallb_app, Hb1, Hb2|].
    rewrite !count_app, Hl1, Hl2, Hc1, Hc2.
    split.
    { destruct (is_GetLed q), (led (world s)) eqn:E, (led (world s1)) eqn:E1;
        cbn; try reflexivity;
        try (destruct Hln1 as [Hx Hy]; first
               [ specialize (Hx eq_refl); destruct Hx; congruence
               | specialize (Hy (conj eq_refl eq_refl)); congruence ]). }
    split.
    { destruct (is_GetAudioCodec q), (audio_codec (world s)) eqn:E,
        (audio_codec (world s1)) eqn:E1;
        cbn; try reflexivity;
        try (destruct Hcn1 as [Hx Hy]; first
               [ specialize (Hx eq_refl); destruct Hx; congruence
               | specialize (Hy (conj eq_refl eq_refl)); congruence ]). }
    split.
    + rewrite Hln2, Hln1, orb_false_iff. tauto.
    + rewrite Hcn2, Hcn1, orb_false_iff. tauto.
Qed.

(** X7. The display is brought up once, by the constructor: whatever
    requests are served afterwards (member functions, button clicks), none
    of them calls the bus, panel or display-object routines again, and none
    allocates or frees on the heap. *)
Theorem serve_all_no_bringup (qs : list Request) s :
  exists s' evs,
    serve_all qs s = Done tt s' /\
    trace (world s') = (trace (world s) ++ evs)%list /\
    forallb (fun e => negb (is_bringup e)) evs = true /\
    heap (world s') = heap (world s).
Proof.
  destruct (serve_all_effects qs s) as (s' & evs & Hrun & Ht & Hb & _).
  destruct (serve_all_preserves qs s) as (s'' & Hrun' & _ & _ & Hh & _).
  assert (s'' = s') by congruence. subst s''.
  exists s', evs. repeat split; assumption.
Qed.

(** X8. The LED and the audio codec are each constructed at most once per
    process, however often and in whatever order their accessors are
    called: over any sequence of requests the constructor of each runs
    exactly once if the object did not exist and its accessor is among the
    requests, and not at all otherwise. *)
Theorem statics_constructed_once (qs : list Request) s :
  exists s' evs,
    serve_all qs s = Done tt s' /\
    trace (world s') = (trace (world s) ++ evs)%list /\
    count is_led_ctor evs =
      match led (world s) with
      | Some _ => 0
      | None => if existsb is_GetLed qs then 1 else 0
      end%nat /\
    count is_codec_ctor evs =
      match audio_codec (world s) with
      | Some _ => 0
      | None => if existsb is_GetAudioCodec qs then 1 else 0
      end%nat.
Proof.
  destruct (serve_all_effects qs s)
    as (s' & evs & Hrun & Ht & _ & Hl & Hc & _).
  exists s', evs. repeat split; assumption.
Qed.

(** X6. Every click toggles the chat state exactly once and nothing else
    does: with the callback bound, after any sequence of requests the
    application has been toggled as many times as there were clicks in the
    sequence, whether or not a click went through the radio reset. *)
Theorem clicks_toggle_once_each (qs : list Request) : forall s,
  on_click (boot_button_ (this s)) = Some InitializeButtons_lambda ->
  exists s',
    serve_all qs s = Done tt s' /\
    app (world s') =
      Nat.iter (count is_click qs) Application.ToggleChatState (app (world s)).
Proof.
  induction qs as [|q qs IH]; intros s Hbound.
  - exists s. split; reflexivity.
  - destruct (serve_app q s) as (s1 & Hrun1 & Hb1 & Ha1).
    destruct (IH s1 ltac:(congruence)) as (s2 & Hrun2 & Ha2).
    exists s2. cbn [serve_all]. unfold bind at 1. rewrite Hrun1.
    split; [exact Hrun2|].
    rewrite Ha2, Ha1, Hbound. unfold count. cbn [filter].
    destruct (is_click q); cbn [length]; [|reflexivity].
    now rewrite Nat.iter_succ_r.
Qed.



(** ** Status text: sizes and embedded NUL *)

(** X9. The 256-byte buffer is never exhausted by a station that reports an
    SSID of at most 32 bytes, an address of at most 45 bytes and an RSSI
    that is a 32-bit [int]: [GetDeviceStatusJson()] then returns the whole
    formatted text, 143 bytes of fixed text plus the four converted
    arguments, at most 236 bytes. *)
Theorem GetDeviceStatusJson_not_cut_in_range s :
  (String.length (WifiStation.GetSsid (wifi_station_ (this s))) <= 32)%nat ->
  (String.length (WifiStation.GetIpAddress (wifi_station_ (this s))) <= 45)%nat
  ->
  - 2 ^ 31 <= WifiStation.GetRssi (wifi_station_ (this s)) < 2 ^ 31 ->
  exists text,
    GetDeviceStatusJson s = Done text s /\
    text = status_text (wifi_station_ (this s)) /\
    String.length text =
      (143
       + (if WifiStation.IsConnected (wifi_station_ (this s)) then 4 else 5)
       + String.length (c_str (WifiStation.GetSsid (wifi_station_ (this s))))
       + String.length
           (c_str (WifiStation.GetIpAddress (wifi_station_ (this s))))
       + String.length
           (format_d (WifiStation.GetRssi (wifi_station_ (this s)))))%nat /\
    (String.length text <= 236)%nat.
Proof.
  intros Hssid Hip Hrssi.
  pose proof (status_text_fits _ Hssid Hip Hrssi) as Hfits.
  exists (status_text (wifi_station_ (this s))).
  split; [rewrite GetDeviceStatusJson_run; now rewrite (take_all _ _ Hfits)|].
  split; [reflexivity|].
  split; [apply status_text_length_eq|].
  rewrite status_text_length_eq.
  pose proof (c_str_length (WifiStation.GetSsid (wifi_station_ (this s)))).
  pose proof
    (c_str_length (WifiStation.GetIpAddress (wifi_station_ (this s)))).
  assert (Hdec : - 10 ^ Z.of_nat 10
                 < WifiStation.GetRssi (wifi_station_ (this s))
                 < 10 ^ Z.of_nat 10)
    by (change (Z.of_nat 10) with 10; lia).
  pose proof (format_d_length _ 10 Hdec).
  destruct (WifiStation.IsConnected (wifi_station_ (this s))); lia.
Qed.

Lemma parse_status_text_c_str (r : R) (n : nat) :
  json_plain (c_str (WifiStation.GetSsid r)) = true ->
  json_plain (c_str (WifiStation.GetIpAddress r)) = true ->
  parse_value (6 + n) (status_text r) =
  Parsed
    (JObject
       [("wifi_connected", JBool (WifiStation.IsConnected r));
        ("wifi_ssid", JString (c_str (WifiStation.GetSsid r)));
        ("ip_address", JString (c_str (WifiStation.GetIpAddress r)));
        ("rssi", JInteger (WifiStation.GetRssi r))]) "".
Proof.
  intros Hssid Hip.
  unfold status_text, status_args.
  destruct (WifiStation.IsConnected r);
    cbn -[parse_value parse_members parse_elements];
    do 5 reader_step;
    rewrite (scan_string_body_plain _ _ Hssid);
    cbn -[parse_value parse_members parse_elements];
    do 2 reader_step;
    rewrite (scan_string_body_plain _ _ Hip);
    cbn -[parse_value parse_members parse_elements];
    rewrite parse_members_step;
    cbn -[parse_value parse_members parse_elements];
    rewrite parse_value_format_d by reflexivity;
    reflexivity.
Qed.

(** X10. An SSID or address is written through [c_str()], so only the bytes
    before its first NUL reach the text.  When those bytes need no escaping
    and the text fits the buffer, the result is valid JSON whose wifi_ssid
    and ip_address are the strings cut at the NUL; what follows the NUL,
    quotation marks included, has no effect. *)
Theorem GetDeviceStatusJson_cut_at_NUL s :
  json_plain (c_str (WifiStation.GetSsid (wifi_station_ (this s)))) = true ->
  json_plain (c_str (WifiStation.GetIpAddress (wifi_station_ (this s)))) = true
  ->
  (String.length (status_text (wifi_station_ (this s))) <= 255)%nat ->
  exists text,
    GetDeviceStatusJson s = Done text s /\
    parse_json text =
    Parsed
      (JObject
         [("wifi_connected",
           JBool (WifiStation.IsConnected (wifi_station_ (this s))));
          ("wifi_ssid",
           JString (c_str (WifiStation.GetSsid (wifi_station_ (this s)))));
          ("ip_address",
           JString (c_str (WifiStation.GetIpAddress (wifi_station_ (this s)))));
          ("rssi", JInteger (WifiStation.GetRssi (wifi_station_ (this s))))])
      "".
Proof.
  intros Hssid Hip Hfits.
  eexists. split; [apply GetDeviceStatusJson_run|].
  rewrite (take_all _ _ Hfits). unfold parse_json.
  assert (Hws : skip_ws (status_text (wifi_station_ (this s))) =
                status_text (wifi_station_ (this s))) by reflexivity.
  rewrite Hws.
  pose proof (status_text_length (wifi_station_ (this s))) as Hlen.
  replace (S (2 * String.length (status_text (wifi_station_ (this s)))))
    with (6 + (2 * String.length (status_text (wifi_station_ (this s))) - 5))%nat
    by lia.
  now rewrite (parse_status_text_c_str _ _ Hssid Hip).
Qed.

Lemma append_assoc (a b c : string) : (a ++ b) ++ c = a ++ (b ++ c).
Proof. induction a as [|x a IH]; cbn; [reflexivity|now rewrite IH]. Qed.

Lemma parse_status_text_quote (r : R) (n : nat) (a b : string) :
  c_str (WifiStation.GetSsid r) = a ++ String dquote b ->
  json_plain a = true ->
  forall j rest,
    parse_value (6 + n) (status_text r) = Parsed j rest ->
    exists more,
      j = JObject (("wifi_connected", JBool (WifiStation.IsConnected r))
                   :: ("wifi_ssid", JString a) :: more).
Proof.
  intros Hsplit Hplain j rest.
  unfold status_text, status_args.
  destruct (WifiStation.IsConnected r);
    cbn -[parse_value parse_members parse_elements];
    rewrite Hsplit;
    do 5 reader_step;
    rewrite append_assoc; cbn [append];
    rewrite (scan_string_body_plain _ _ Hplain);
    cbn -[parse_value parse_members parse_elements];
    match goal with |- context [skip_ws ?t] => destruct (skip_ws t) as [|sep r4]
    end;
    try discriminate;
    destruct (Ascii.eqb sep ",");
    try (destruct (parse_members (S (S (S n))) (skip_ws r4));
         cbn; intros H; try discriminate H; injection H as <- _;
         eexists; reflexivity);
    destruct (Ascii.eqb sep "}");
    cbn; intros H; try discriminate H; injection H as <- _;
    eexists; reflexivity.
Qed.

Lemma parse_json_status_text_quote (r : R) (a b : string) :
  c_str (WifiStation.GetSsid r) = a ++ String dquote b ->
  json_plain a = true ->
  forall j,
    parse_json (status_text r) = Parsed j "" ->
    exists more,
      j = JObject (("wifi_connected", JBool (WifiStation.IsConnected r))
                   :: ("wifi_ssid", JString a) :: more).
Proof.
  intros Hsplit Hplain j. unfold parse_json.
  assert (Hws : skip_ws (status_text r) = status_text r) by reflexivity.
  rewrite Hws.
  pose proof (status_text_length r) as Hlen.
  replace (S (2 * String.length (status_text r)))
    with (6 + (2 * String.length (status_text r) - 5))%nat by lia.
  destruct (parse_value _ (status_text r)) as [v rest| |] eqn:E;
    try discriminate.
  destruct (skip_ws rest); [|discriminate].
  intros H. injection H as <-.
  exact (parse_status_text_quote _ _ a b Hsplit Hplain _ _ E).
Qed.

(** X12. Nothing is escaped: when the SSID holds a quotation mark (after
    bytes that need no escaping), the mark closes the JSON string of
    wifi_ssid early.  The text then never reads back as the station's
    report; if it reads as JSON at all, the member written for wifi_ssid,
    the second of the object, holds only the part of the SSID before the
    mark, and what follows the mark has been read as JSON syntax. *)
Theorem GetDeviceStatusJson_quote_breaks_ssid s (a b : string) :
  c_str (WifiStation.GetSsid (wifi_station_ (this s))) =
    a ++ String dquote b ->
  json_plain a = true ->
  (String.length (status_text (wifi_station_ (this s))) <= 255)%nat ->
  ~ status_json_faithful s /\
  exists text,
    GetDeviceStatusJson s = Done text s /\
    forall j,
      parse_json text = Parsed j "" ->
      exists more,
        j = JObject
              (("wifi_connected",
                JBool (WifiStation.IsConnected (wifi_station_ (this s))))
               :: ("wifi_ssid", JString a) :: more).
Proof.
  intros Hsplit Hplain Hfits.
  pose proof (GetDeviceStatusJson_run s) as Hrun.
  rewrite (take_all _ _ Hfits) in Hrun.
  split.
  - intros (text & Hrun' & Hparse).
    rewrite Hrun in Hrun'. injection Hrun' as <-.
    destruct (parse_json_status_text_quote _ a b Hsplit Hplain _ Hparse)
      as (more & Hshape).
    unfold status_report in Hshape. injection Hshape as Hssid _.
    rewrite Hssid in Hsplit.
    rewrite (c_str_no_nul _ (json_plain_no_nul _ Hplain)) in Hsplit.
    apply (f_equal String.length) in Hsplit.
    rewrite length_append in Hsplit. cbn in Hsplit. lia.
  - eexists. split; [exact Hrun|].
    apply (parse_json_status_text_quote _ a b Hsplit Hplain).
Qed.

(** ** Clicks after association *)

Lemma serve_connected (q : Request) s :
  (forall r : R, WifiStation.IsConnected r = true ->
                 WifiStation.IsConnected (WifiStation.Start r) = true) ->
  (forall l (r : R), WifiStation.IsConnected r = true ->
     WifiStation.IsConnected (WifiStation.SetPowerSaveLevel l r) = true) ->
  WifiStation.IsConnected (wifi_station_ (this s)) = true ->
  exists s' evs,
    serve q s = Done tt s' /\
    trace (world s') = (trace (world s) ++ evs)%list /\
    WifiStation.IsConnected (wifi_station_ (this s')) = true /\
    count is_radio_stop evs = 0%nat.
Proof.
  intros Hstart Hlevel Hconn.
  assert (Hnil : forall t : list Event, t = (t ++ [])%list)
    by (intros t; now rewrite List.app_nil_r).
  destruct q;
    try (run_method; exists s, []; split; [now destruct s|];
         split; [apply Hnil|]; split; [exact Hconn|reflexivity]).
  - run_method. destruct (led (world s)).
    + exists s, []. split; [now destruct s|].
      split; [apply Hnil|]. split; [exact Hconn|reflexivity].
    + do 2 eexists. split; [reflexivity|]. cbn.
      split; [reflexivity|]. split; [exact Hconn|reflexivity].
  - run_method. destruct (audio_codec (world s)).
    + exists s, []. split; [now destruct s|].
      split; [apply Hnil|]. split; [exact Hconn|reflexivity].
    + do 2 eexists. split; [reflexivity|]. cbn.
      split; [reflexivity|]. split; [exact Hconn|reflexivity].
  - run_method. do 2 eexists. split; [reflexivity|]. cbn.
    split; [reflexivity|]. split; [now apply Hstart|reflexivity].
  - run_method. do 2 eexists. split; [reflexivity|]. cbn.
    split; [reflexivity|]. split; [now apply Hlevel|reflexivity].
  - cbv [serve click read bind].
    destruct (on_click (boot_button_ (this s))) as [[]|].
    + cbv [run_callback].
      rewrite (boot_button_click_plain s (or_intror Hconn)).
      do 2 eexists. split; [reflexivity|]. cbn.
      split; [reflexivity|]. split; [exact Hconn|reflexivity].
    + exists s, []. split; [reflexivity|].
      split; [apply Hnil|]. split; [exact Hconn|reflexivity].
Qed.

(** X13. While the station keeps reporting connected, no click resets it:
    if the station's own [Start] and [SetPowerSaveLevel] and every change
    the station undergoes between requests leave it connected, then no
    sequence of requests and outside changes of station and application,
    however many clicks it holds and whatever the device state becomes,
    makes the board call [Stop()]. *)
Theorem no_radio_stop_while_connected (sts : list Step) : forall s,
  (forall r : R, WifiStation.IsConnected r = true ->
                 WifiStation.IsConnected (WifiStation.Start r) = true) ->
  (forall l (r : R), WifiStation.IsConnected r = true ->
     WifiStation.IsConnected (WifiStation.SetPowerSaveLevel l r) = true) ->
  Forall keeps_connected sts ->
  WifiStation.IsConnected (wifi_station_ (this s)) = true ->
  exists s' evs,
    happen_all sts s = Done tt s' /\
    trace (world s') = (trace (world s) ++ evs)%list /\
    WifiStation.IsConnected (wifi_station_ (this s')) = true /\
    count is_radio_stop evs = 0%nat.
Proof.
  induction sts as [|st sts IH]; intros s Hstart Hlevel Hkeep Hconn.
  - exists s, []. cbn. rewrite List.app_nil_r. repeat split. exact Hconn.
  - inversion Hkeep as [|st' sts' Hst Hsts]; subst.
    assert (Hstep : exists s1 e1,
               happen st s = Done tt s1 /\
               trace (world s1) = (trace (world s) ++ e1)%list /\
               WifiStation.IsConnected (wifi_station_ (this s1)) = true /\
               count is_radio_stop e1 = 0%nat).
    { destruct st as [q|f|g]; cbn [happen].
      - exact (serve_connected q s Hstart Hlevel Hconn).
      - cbv [on_this]. do 2 eexists. split; [reflexivity|]. cbn.
        split; [now rewrite List.app_nil_r|].
        split; [apply Hst, Hconn|reflexivity].
      - cbv [on_world]. do 2 eexists. split; [reflexivity|]. cbn.
        split; [now rewrite List.app_nil_r|].
        split; [exact Hconn|reflexivity]. }
    destruct Hstep as (s1 & e1 & Hrun1 & Ht1 & Hc1 & Hn1).
    destruct (IH s1 Hstart Hlevel Hsts Hc1)
      as (s2 & e2 & Hrun2 & Ht2 & Hc2 & Hn2).
    exists s2, (e1 ++ e2)%list.
    cbn [happen_all]. unfold bind at 1. rewrite Hrun1.
    split; [exact Hrun2|].
    split; [now rewrite Ht2, Ht1, List.app_assoc|].
    split; [exact Hc2|].
    now rewrite count_app, Hn1, Hn2.
Qed.

End Properties.

(** * The theorems at concrete inputs *)

(** C1 at an unnamed level: the mock station, told 7, stores [BALANCED]. *)
Lemma SetPowerSaveLevel_radio_receives_witness :
  corresponds 7 WifiPowerSaveLevel.BALANCED /\
  SetPowerSaveLevel 7 (mock_state kDeviceStateStarting station_S1) =
  Done tt
    {| this := set_wifi_station_
                 (WifiStation.SetPowerSaveLevel WifiPowerSaveLevel.BALANCED
                    station_S1)
                 (this (mock_state kDeviceStateStarting station_S1));
       world := set_trace
                  [Call_WifiStation_SetPowerSaveLevel
                     WifiPowerSaveLevel.BALANCED]
                  (world (mock_state kDeviceStateStarting station_S1)) |}.
Proof.
  assert (H : corresponds 7 WifiPowerSaveLevel.BALANCED).
  { apply corresponds_unknown. intros [E|[E|E]]; discriminate E. }
  split; [exact H|].
  exact (SetPowerSaveLevel_radio_receives 7 WifiPowerSaveLevel.BALANCED
           (mock_state kDeviceStateStarting station_S1) H).
Defined.

(** C2 at scenarios S2 (starting, disconnected) and S3 (associated). *)
Lemma boot_button_click_calls_witness :
  (mock_device_state
     (app (world (mock_state kDeviceStateStarting station_S1))) =
     kDeviceStateStarting /\
   mock_connected station_S1 = false /\
   exists s',
     boot_button_click (mock_state kDeviceStateStarting station_S1) =
       Done tt s' /\
     trace (world s') =
       [Call_WifiStation_Stop;
        Call_vTaskDelay (pdMS_TO_TICKS 100);
        Call_WifiStation_Start;
        Call_ESP_LOG LOGI TAG "WiFi configuration reset";
        Call_Application_ToggleChatState]) /\
  (mock_connected station_S4 = true /\
   exists s',
     boot_button_click (mock_state kDeviceStateStarting station_S4) =
       Done tt s' /\
     trace (world s') = [Call_Application_ToggleChatState]).
Proof.
  split; (split; [reflexivity|]); [split; [reflexivity|]|].
  - destruct (boot_button_click_calls
                (mock_state kDeviceStateStarting station_S1)) as [Hreset _].
    destruct (Hreset eq_refl eq_refl) as (s' & delay & Hrun & _ & _).
    exists s'. split; [exact Hrun|].
    vm_compute in Hrun. injection Hrun as <-. reflexivity.
  - destruct (boot_button_click_calls
                (mock_state kDeviceStateStarting station_S4)) as [_ Hplain].
    destruct (Hplain (or_intror eq_refl)) as (s' & Hrun & Htrace & _).
    exists s'. split; [exact Hrun|exact Htrace].
Defined.

(** Scenario S4 reads back: its strings need no escaping and the text
    fits. *)
Lemma GetDeviceStatusJson_faithful_witness :
  json_plain (mock_ssid station_S4) = true /\
  json_plain (mock_ip station_S4) = true /\
  (String.length (status_text station_S4) <= 255)%nat /\
  status_json_faithful (mock_state kDeviceStateStarting station_S4).
Proof.
  assert (Hssid : json_plain (mock_ssid station_S4) = true) by reflexivity.
  assert (Hip : json_plain (mock_ip station_S4) = true) by reflexivity.
  assert (Hfits : (String.length (status_text station_S4) <= 255)%nat)
    by (vm_compute; lia).
  repeat (split; [assumption|]).
  exact (GetDeviceStatusJson_faithful
           (mock_state kDeviceStateStarting station_S4) Hssid Hip Hfits).
Defined.

(** C3.  The code does not do what the claim says.  For the SSID a,
    quotation mark, b, [GetDeviceStatusJson()] writes the mark as it is:
    the text it returns, given here byte for byte, is refused as JSON, and
    so does not read back as what the station reports. *)
Theorem GetDeviceStatusJson_unescaped_quote :
  exists text,
    GetDeviceStatusJson (mock_state kDeviceStateStarting station_quote_ssid) =
      Done text (mock_state kDeviceStateStarting station_quote_ssid) /\
    text =
      "{" ++ chr newline ++
      line 16 (quoted "wifi_connected" ++ ": true,") ++
      line 16 (quoted "wifi_ssid" ++ ": " ++ quoted quote_ssid ++ ",") ++
      line 16 (quoted "ip_address" ++ ": " ++ quoted "10.0.0.7" ++ ",") ++
      line 16 (quoted "rssi" ++ ": -42") ++
      spaces 12 ++ "}" /\
    parse_json text = SyntaxError /\
    ~ status_json_faithful
        (mock_state kDeviceStateStarting station_quote_ssid).
Proof.
  eexists. split; [vm_compute; reflexivity|].
  split; [vm_compute; reflexivity|].
  split; [vm_compute; reflexivity|].
  intros (text & Hrun & Hparse).
  vm_compute in Hrun. injection Hrun as <-.
  vm_compute in Hparse. discriminate Hparse.
Qed.

(** The buffer cuts what does not fit: with an SSID of 200 bytes the text
    stops after 255 bytes, inside the object, and is no JSON text. *)
Example status_text_cut_at_255 :
  exists text,
    GetDeviceStatusJson (mock_state kDeviceStateStarting station_long_ssid) =
      Done text (mock_state kDeviceStateStarting station_long_ssid) /\
    String.length text = 255%nat /\
    parse_json text = SyntaxError.
Proof.
  eexists. split; [vm_compute; reflexivity|].
  split; vm_compute; reflexivity.
Qed.

(** C5 at scenarios S1 and S4. *)
Lemma GetNetworkStateIcon_spec_witness :
  (mock_connected station_S4 = true /\
   GetNetworkStateIcon (mock_state kDeviceStateStarting station_S4) =
   Done (literal "wifi") (mock_state kDeviceStateStarting station_S4)) /\
  (mock_connected station_S1 = false /\
   GetNetworkStateIcon (mock_state kDeviceStateStarting station_S1) =
   Done (literal "wifi_off") (mock_state kDeviceStateStarting station_S1)).
Proof.
  split; (split; [reflexivity|]).
  - destruct (GetNetworkStateIcon_spec
                (mock_state kDeviceStateStarting station_S4))
      as (icon & Hrun & _ & Hon & _).
    rewrite Hrun. now rewrite (Hon eq_refl).
  - destruct (GetNetworkStateIcon_spec
                (mock_state kDeviceStateStarting station_S1))
      as (icon & Hrun & _ & _ & Hoff).
    rewrite Hrun. now rewrite (Hoff eq_refl).
Defined.

(** C6 on a board whose statics have not been reached yet: the first
    [GetLed()] constructs the LED from the manifest's pin. *)
Lemma GetLed_GetAudioCodec_singleton_witness :
  led (world (mock_state kDeviceStateStarting station_S1)) = None /\
  exists s',
    GetLed (mock_state kDeviceStateStarting station_S1) =
      Done (static_addr GetLed_led) s' /\
    led (world s') = Some {| led_gpio := 8 |}.
Proof.
  split; [reflexivity|].
  destruct (GetLed_GetAudioCodec_singleton
              (mock_state kDeviceStateStarting station_S1)
              (mock_state kDeviceStateStarting station_S4))
    as [(h & s1' & s2' & Hrun & _ & _ & _ & Hfirst & _) _].
  exists s1'. split.
  - rewrite Hrun. f_equal.
    vm_compute in Hrun. now injection Hrun as <- _.
  - exact (Hfirst eq_refl).
Defined.

(** C7 on working hardware: the constructor returns, and after a click, a
    power-save change and a network start the display handle is the one the
    constructor stored. *)
Lemma GetDisplay_stable_witness :
  spi_bus_initialize_ret (hw (fresh_world kDeviceStateStarting)) = ESP_OK /\
  esp_lcd_new_panel_io_spi_ret (hw (fresh_world kDeviceStateStarting)) =
    ESP_OK /\
  esp_lcd_new_panel_st7789_ret (hw (fresh_world kDeviceStateStarting)) =
    ESP_OK /\
  exists s0 h,
    Esp32C3SuperMiniBoard_ctor (R := MockStation)
      (fresh_world kDeviceStateStarting) = Done tt s0 /\
    h <> nullptr /\
    exists s s_end,
      serve_all [Req_Click; Req_SetPowerSaveLevel 2; Req_StartNetwork] s0 =
        Done tt s /\
      GetDisplay s = Done h s /\
      Esp32C3SuperMiniBoard_dtor s = Done tt s_end /\
      display_ (this s_end) = nullptr.
Proof.
  repeat (split; [reflexivity|]).
  destruct (GetDisplay_stable (R := MockStation)
              (fresh_world kDeviceStateStarting) eq_refl eq_refl eq_refl)
    as (s0 & h & Hctor & Hnonnull & Hall).
  exists s0, h. split; [exact Hctor|]. split; [exact Hnonnull|].
  exact (Hall [Req_Click; Req_SetPowerSaveLevel 2; Req_StartNetwork]).
Defined.

(** C8 with the station that stores the level. *)
Lemma SetPowerSaveLevel_idempotent_witness :
  (forall l (r : MockStation),
      WifiStation.SetPowerSaveLevel l (WifiStation.SetPowerSaveLevel l r) =
      WifiStation.SetPowerSaveLevel l r) /\
  exists once twice,
    SetPowerSaveLevel PowerSaveLevel.LOW_POWER
      (mock_state kDeviceStateStarting station_S4) = Done tt once /\
    (SetPowerSaveLevel PowerSaveLevel.LOW_POWER ;;;
     SetPowerSaveLevel PowerSaveLevel.LOW_POWER)
      (mock_state kDeviceStateStarting station_S4) = Done tt twice /\
    same_objects once twice.
Proof.
  assert (H : forall l (r : MockStation),
             WifiStation.SetPowerSaveLevel l
               (WifiStation.SetPowerSaveLevel l r) =
             WifiStation.SetPowerSaveLevel l r)
    by (intros l r; reflexivity).
  split; [exact H|].
  exact (SetPowerSaveLevel_idempotent PowerSaveLevel.LOW_POWER
           (mock_state kDeviceStateStarting station_S4) H).
Defined.

(** * Scenarios of the specification, run on the test doubles *)

(** S1, cold start: the status text reads back as not connected, empty
    names, RSSI 0; the icon is "wifi_off". *)
Example scenario_S1 :
  (exists text,
     GetDeviceStatusJson (mock_state kDeviceStateStarting station_S1) =
       Done text (mock_state kDeviceStateStarting station_S1) /\
     parse_json text =
       Parsed (JObject [("wifi_connected", JBool false);
                        ("wifi_ssid", JString "");
                        ("ip_address", JString "");
                        ("rssi", JInteger 0)]) "") /\
  GetNetworkStateIcon (mock_state kDeviceStateStarting station_S1) =
    Done (literal "wifi_off") (mock_state kDeviceStateStarting station_S1).
Proof.
  split; [eexists; split; [vm_compute; reflexivity|]|]; vm_compute;
    reflexivity.
Qed.

(** S4, associated: SSID "lab", address "10.0.0.7", RSSI -42. *)
Example scenario_S4 :
  (exists text,
     GetDeviceStatusJson (mock_state kDeviceStateStarting station_S4) =
       Done text (mock_state kDeviceStateStarting station_S4) /\
     parse_json text =
       Parsed (JObject [("wifi_connected", JBool true);
                        ("wifi_ssid", JString "lab");
                        ("ip_address", JString "10.0.0.7");
                        ("rssi", JInteger (-42))]) "") /\
  GetNetworkStateIcon (mock_state kDeviceStateStarting station_S4) =
    Done (literal "wifi") (mock_state kDeviceStateStarting station_S4).
Proof.
  split; [eexists; split; [vm_compute; reflexivity|]|]; vm_compute;
    reflexivity.
Qed.

(** S5, power-save round trip, with 99 as the out-of-range value. *)
Example scenario_S5 :
  stored_level_after PowerSaveLevel.LOW_POWER =
    Some WifiPowerSaveLevel.LOW_POWER /\
  stored_level_after PowerSaveLevel.BALANCED =
    Some WifiPowerSaveLevel.BALANCED /\
  stored_level_after PowerSaveLevel.PERFORMANCE =
    Some WifiPowerSaveLevel.PERFORMANCE /\
  stored_level_after 99 = Some WifiPowerSaveLevel.BALANCED.
Proof. repeat split. Qed.

(** * The further properties at concrete inputs *)

(** X1 on working hardware. *)
Lemma Esp32C3SuperMiniBoard_ctor_order_witness :
  spi_bus_initialize_ret good_hardware = ESP_OK /\
  esp_lcd_new_panel_io_spi_ret good_hardware = ESP_OK /\
  esp_lcd_new_panel_st7789_ret good_hardware = ESP_OK /\
  exists s0,
    Esp32C3SuperMiniBoard_ctor (R := MockStation)
      (fresh_world kDeviceStateStarting) = Done tt s0 /\
    List.map is_bringup (trace (world s0)) =
      [true; false; true; false; true; true; true; true; true; true; true;
       true].
Proof.
  repeat (split; [reflexivity|]).
  destruct (Esp32C3SuperMiniBoard_ctor_order (R := MockStation)
              (fresh_world kDeviceStateStarting) eq_refl eq_refl eq_refl)
    as (s0 & buscfg & Hctor & Htrace & _).
  exists s0. split; [exact Hctor|]. rewrite Htrace. reflexivity.
Defined.

(** X2 with a panel I/O that cannot be installed. *)
Lemma Esp32C3SuperMiniBoard_ctor_fatal_witness :
  spi_bus_initialize_ret bad_panel_io = ESP_OK /\
  esp_lcd_new_panel_io_spi_ret bad_panel_io <> ESP_OK /\
  exists s,
    Esp32C3SuperMiniBoard_ctor (R := MockStation) world_bad_panel_io =
      Aborted s /\
    length (trace (world s)) = 3%nat /\
    nothing_built world_bad_panel_io s.
Proof.
  assert (Hbad : esp_lcd_new_panel_io_spi_ret bad_panel_io <> ESP_OK)
    by discriminate.
  split; [reflexivity|]. split; [exact Hbad|].
  destruct (Esp32C3SuperMiniBoard_ctor_fatal (R := MockStation)
              world_bad_panel_io) as (_ & Hio & _).
  destruct (Hio eq_refl Hbad) as (s & buscfg & iocfg & Hrun & Htrace & Hnone).
  exists s. split; [exact Hrun|]. split; [now rewrite Htrace|exact Hnone].
Defined.

(** X3 on working hardware, after a click and two accessor calls. *)
Lemma display_object_alive_witness :
  spi_bus_initialize_ret good_hardware = ESP_OK /\
  esp_lcd_new_panel_io_spi_ret good_hardware = ESP_OK /\
  esp_lcd_new_panel_st7789_ret good_hardware = ESP_OK /\
  exists s0 s,
    Esp32C3SuperMiniBoard_ctor (R := MockStation)
      (fresh_world kDeviceStateStarting) = Done tt s0 /\
    serve_all [Req_Click; Req_GetLed; Req_GetDeviceStatusJson] s0 =
      Done tt s /\
    exists cell obj,
      display_ (this s) = heap_addr cell /\
      nth_error (heap (world s)) cell = Some (Some obj) /\
      width_ obj = 240 /\ height_ obj = 240.
Proof.
  repeat (split; [reflexivity|]).
  destruct (display_object_alive (R := MockStation)
              (fresh_world kDeviceStateStarting) eq_refl eq_refl eq_refl)
    as (s0 & cell & Hctor & _ & Hall).
  destruct (Hall [Req_Click; Req_GetLed; Req_GetDeviceStatusJson])
    as (s & Hrun & Hd & Hlive).
  exists s0, s. split; [exact Hctor|]. split; [exact Hrun|].
  do 2 eexists. split; [exact Hd|]. split; [exact Hlive|].
  split; reflexivity.
Defined.

(** X4 for the 240 x 240 panel: 115200 bytes. *)
Lemma InitializeSpi_max_transfer_sz_witness :
  0 <= 240 * 240 /\ 240 * 240 * 2 < 2 ^ 31 /\
  exists s' cfg,
    InitializeSpi (mock_state kDeviceStateStarting station_S1) =
      Done tt s' /\
    trace (world s') =
      [Call_spi_bus_initialize SPI2_HOST cfg SPI_DMA_CH_AUTO] /\
    max_transfer_sz cfg = 115200.
Proof.
  assert (H0 : 0 <= DISPLAY_WIDTH * DISPLAY_HEIGHT) by (cbn; lia).
  assert (H1 : DISPLAY_WIDTH * DISPLAY_HEIGHT * 2 < 2 ^ 31) by (cbn; lia).
  split; [lia|]. split; [lia|].
  destruct (InitializeSpi_max_transfer_sz
              (mock_state kDeviceStateStarting station_S1) H0 H1 eq_refl)
    as (s' & Hrun & _ & Htrace).
  exists s'. eexists. split; [exact Hrun|]. split; [exact Htrace|].
  reflexivity.
Defined.

(** X5 on a constructed board. *)
Lemma Esp32C3SuperMiniBoard_dtor_once_witness :
  display_ (this (mock_state kDeviceStateStarting station_S1)) =
    heap_addr 0 /\
  (exists obj,
     nth_error (heap (world (mock_state kDeviceStateStarting station_S1))) 0
     = Some (Some obj)) /\
  exists s1,
    Esp32C3SuperMiniBoard_dtor (mock_state kDeviceStateStarting station_S1) =
      Done tt s1 /\
    heap (world s1) = [None] /\
    Esp32C3SuperMiniBoard_dtor s1 = Done tt s1.
Proof.
  split; [reflexivity|]. split; [eexists; reflexivity|].
  destruct (Esp32C3SuperMiniBoard_dtor_once
              (mock_state kDeviceStateStarting station_S1) 0 _
              eq_refl eq_refl)
    as (s1 & Hrun & _ & _ & _ & _ & Hagain).
  exists s1. split; [exact Hrun|]. split; [|exact Hagain].
  vm_compute in Hrun. injection Hrun as <-. reflexivity.
Defined.

(** X6: two clicks among four requests, two toggles counted. *)
Lemma clicks_toggle_once_each_witness :
  on_click (boot_button_ (this (mock_state kDeviceStateStarting station_S1)))
    = Some InitializeButtons_lambda /\
  exists s',
    serve_all [Req_Click; Req_GetLed; Req_Click; Req_StartNetwork]
      (mock_state kDeviceStateStarting station_S1) = Done tt s' /\
    mock_toggles (app (world s')) = 2%nat.
Proof.
  split; [reflexivity|].
  destruct (clicks_toggle_once_each
              [Req_Click; Req_GetLed; Req_Click; Req_StartNetwork]
              (mock_state kDeviceStateStarting station_S1) eq_refl)
    as (s' & Hrun & Happ).
  exists s'. split; [exact Hrun|]. now rewrite Happ.
Defined.


(** X9 at scenario S4: 161 bytes. *)
Lemma GetDeviceStatusJson_not_cut_in_range_witness :
  (String.length (mock_ssid station_S4) <= 32)%nat /\
  (String.length (mock_ip station_S4) <= 45)%nat /\
  - 2 ^ 31 <= mock_rssi station_S4 < 2 ^ 31 /\
  exists text,
    GetDeviceStatusJson (mock_state kDeviceStateStarting station_S4) =
      Done text (mock_state kDeviceStateStarting station_S4) /\
    String.length text = 161%nat.
Proof.
  assert (Hssid : (String.length (mock_ssid station_S4) <= 32)%nat)
    by (cbn; lia).
  assert (Hip : (String.length (mock_ip station_S4) <= 45)%nat)
    by (cbn; lia).
  assert (Hrssi : - 2 ^ 31 <= mock_rssi station_S4 < 2 ^ 31) by (cbn; lia).
  repeat (split; [assumption|]).
  pose proof (GetDeviceStatusJson_not_cut_in_range
                (mock_state kDeviceStateStarting station_S4)) as H.
  destruct (H ltac:(cbn; lia) ltac:(cbn; lia) ltac:(cbn; lia))
    as (text & Hrun & _ & Hlen & _).
  exists text. split; [exact Hrun|]. rewrite Hlen. reflexivity.
Defined.

(** X10: of the SSID ab, NUL, c, quotation mark, d only ab is reported. *)
Lemma GetDeviceStatusJson_cut_at_NUL_witness :
  json_plain (c_str (mock_ssid station_nul_ssid)) = true /\
  json_plain (c_str (mock_ip station_nul_ssid)) = true /\
  (String.length (status_text station_nul_ssid) <= 255)%nat /\
  exists text j,
    GetDeviceStatusJson (mock_state kDeviceStateStarting station_nul_ssid) =
      Done text (mock_state kDeviceStateStarting station_nul_ssid) /\
    parse_json text = Parsed j "" /\
    member "wifi_ssid" j = Some (JString "ab").
Proof.
  assert (Hssid : json_plain (c_str (mock_ssid station_nul_ssid)) = true)
    by reflexivity.
  assert (Hip : json_plain (c_str (mock_ip station_nul_ssid)) = true)
    by reflexivity.
  assert (Hfits : (String.length (status_text station_nul_ssid) <= 255)%nat)
    by (vm_compute; lia).
  repeat (split; [assumption|]).
  pose proof (GetDeviceStatusJson_cut_at_NUL
                (mock_state kDeviceStateStarting station_nul_ssid)) as H.
  destruct (H Hssid Hip Hfits) as (text & Hrun & Hparse).
  exists text. eexists. split; [exact Hrun|]. split; [exact Hparse|].
  reflexivity.
Defined.

(** X12 with an SSID that closes its string and goes on with a member of
    its own: the text is valid JSON with two wifi_ssid members, the first
    holding the part before the mark, and it is not the station's report. *)
Lemma GetDeviceStatusJson_quote_breaks_ssid_witness :
  c_str (mock_ssid station_injected_ssid) =
    "a" ++ String dquote ("," ++ quoted "wifi_ssid" ++ ":" ++ chr dquote
                          ++ "evil") /\
  json_plain "a" = true /\
  (String.length (status_text station_injected_ssid) <= 255)%nat /\
  ~ status_json_faithful
      (mock_state kDeviceStateStarting station_injected_ssid) /\
  exists text,
    GetDeviceStatusJson (mock_state kDeviceStateStarting station_injected_ssid)
      = Done text (mock_state kDeviceStateStarting station_injected_ssid) /\
    parse_json text =
      Parsed (JObject [("wifi_connected", JBool true);
                       ("wifi_ssid", JString "a");
                       ("wifi_ssid", JString "evil");
                       ("ip_address", JString "10.0.0.7");
                       ("rssi", JInteger (-42))]) "".
Proof.
  assert (Hfits :
    (String.length (status_text station_injected_ssid) <= 255)%nat)
    by (vm_compute; lia).
  split; [reflexivity|]. split; [reflexivity|]. split; [exact Hfits|].
  pose proof (GetDeviceStatusJson_quote_breaks_ssid
                (mock_state kDeviceStateStarting station_injected_ssid)
                "a" ("," ++ quoted "wifi_ssid" ++ ":" ++ chr dquote ++ "evil"))
    as H.
  destruct (H eq_refl eq_refl Hfits) as (Hnot & text & Hrun & _).
  split; [exact Hnot|].
  exists text. split; [exact Hrun|].
  vm_compute in Hrun. injection Hrun as <-. vm_compute. reflexivity.
Defined.

(** X13 with the storing station, associated, the device still starting:
    clicks, a network start and changes from outside that leave the link
    up; no [Stop()]. *)
Lemma no_radio_stop_while_connected_witness :
  (forall r : MockStation, WifiStation.IsConnected r = true ->
     WifiStation.IsConnected (WifiStation.Start r) = true) /\
  (forall l (r : MockStation), WifiStation.IsConnected r = true ->
     WifiStation.IsConnected (WifiStation.SetPowerSaveLevel l r) = true) /\
  Forall keeps_connected
    [Step_request Req_Click; Step_radio (fun r : MockStation => r);
     Step_request Req_StartNetwork;
     Step_application (fun a : MockApp => a); Step_request Req_Click] /\
  WifiStation.IsConnected station_S4 = true /\
  exists s' evs,
    happen_all
      [Step_request Req_Click; Step_radio (fun r : MockStation => r);
       Step_request Req_StartNetwork;
       Step_application (fun a : MockApp => a); Step_request Req_Click]
      (mock_state kDeviceStateStarting station_S4) = Done tt s' /\
    trace (world s') = evs /\
    count is_radio_stop evs = 0%nat.
Proof.
  assert (Hstart : forall r : MockStation,
             WifiStation.IsConnected r = true ->
             WifiStation.IsConnected (WifiStation.Start r) = true)
    by (intros r H; exact H).
  assert (Hlevel : forall l (r : MockStation),
             WifiStation.IsConnected r = true ->
             WifiStation.IsConnected (WifiStation.SetPowerSaveLevel l r) = true)
    by (intros l r H; exact H).
  assert (Hkeep : Forall keeps_connected
    [Step_request Req_Click; Step_radio (fun r : MockStation => r);
     Step_request Req_StartNetwork;
     Step_application (fun a : MockApp => a); Step_request Req_Click])
    by (repeat constructor; intros r H; exact H).
  split; [exact Hstart|]. split; [exact Hlevel|]. split; [exact Hkeep|].
  split; [reflexivity|].
  pose proof (no_radio_stop_while_connected
                [Step_request Req_Click; Step_radio (fun r : MockStation => r);
                 Step_request Req_StartNetwork;
                 Step_application (fun a : MockApp => a);
                 Step_request Req_Click]
                (mock_state kDeviceStateStarting station_S4)) as H.
  destruct (H Hstart Hlevel Hkeep eq_refl)
    as (s' & evs & Hrun & Htrace & _ & Hnone).
  exists s', evs. split; [exact Hrun|]. split; [exact Htrace|exact Hnone].
Defined.

(** The hypothesis on the link is needed: when it drops between two clicks
    of a device that is still starting, the second click stops and starts
    the station. *)
Example radio_stop_after_link_drop :
  exists s',
    happen_all
      [Step_request Req_Click; Step_radio link_drops; Step_request Req_Click]
      (mock_state kDeviceStateStarting station_S4) = Done tt s' /\
    trace (world s') =
      [Call_Application_ToggleChatState;
       Call_WifiStation_Stop;
       Call_vTaskDelay (pdMS_TO_TICKS 100);
       Call_WifiStation_Start;
       Call_ESP_LOG LOGI TAG "WiFi configuration reset";
       Call_Application_ToggleChatState].
Proof. eexists. split; vm_compute; reflexivity. Qed.
